(** * Notes organizer: the state-synchronisation logic of the Notes page

    A shallow embedding of the [Home] component of the notes front end
    (the resource client, the [Home] state and handlers, the [NoteEditor]
    local state) as an event-driven transition system, and the properties
    of the specification checked against it.

    Modelling conventions.
    - A component's [useState] cells are record fields; a handler is the
      composition of the setter calls it makes, in source order.
    - Updates made in one handler run (or in one promise continuation) are
      batched into one render, as React 18 does; [commit] then renders and
      runs the effects whose dependencies changed.
    - An [await] splits a handler in two: the part before it issues the
      request and leaves it in [inflight]; the part after it runs when the
      environment settles the request (event [Settle]).
    - Objects have identity: [activeNote] holds a reference together with
      the note, because [NoteEditor] resets its local fields when the
      [note] prop is a different object, not when it is a different value. *)

From Stdlib Require Import Ascii String List Bool Arith Lia.
Import ListNotations.
Open Scope string_scope.
Open Scope list_scope.

(** ** Data model *)

Record Note := mkNote {
  id : string;
  title : string;
  content : string;
  created_at : string;
  updated_at : string
}.

(** Identity of a JavaScript object (allocation stamp). *)
Definition Ref := nat.

Definition isSome {A : Type} (o : option A) : bool :=
  match o with Some _ => true | None => false end.

(** JavaScript truthiness of a [string | null]: null and the empty string
    are falsy. *)
Definition truthy (o : option string) : bool :=
  match o with
  | Some x => negb (x =? "")
  | None => false
  end.

Definition optStringEqb (a b : option string) : bool :=
  match a, b with
  | Some x, Some y => x =? y
  | None, None => true
  | _, _ => false
  end.

Definition optRefEqb (a b : option Ref) : bool :=
  match a, b with
  | Some x, Some y => Nat.eqb x y
  | None, None => true
  | _, _ => false
  end.

(** ** Resource client *)

Inductive Method := GET | POST | PUT | DELETE.

(** One call of [fetch]: the URL and the init options the source passes.
    The body is the object handed to [JSON.stringify], field by field. *)
Record Fetch := mkFetch {
  url : string;
  method : Method;
  headers : list (string * string);
  body : option (list (string * string));
  cache : option string
}.

Definition default_API_URL : string := "http://localhost:8000/api".

(** [process.env.NEXT_PUBLIC_NOTES_API_URL || default]. *)
Definition API_URL (env : option string) : string :=
  match env with
  | Some u => if u =? "" then default_API_URL else u
  | None => default_API_URL
  end.

Section ResourceClient.
Variable base : string.

Definition fetchNotes : Fetch :=
  mkFetch (base ++ "/notes") GET [] None (Some "no-store").

Definition fetchNote (i : string) : Fetch :=
  mkFetch (base ++ "/notes/" ++ i) GET [] None None.

Definition createNote (t c : string) : Fetch :=
  mkFetch (base ++ "/notes") POST
          [("Content-Type", "application/json")]
          (Some [("title", t); ("content", c)]) None.

Definition updateNote (i t c : string) : Fetch :=
  mkFetch (base ++ "/notes/" ++ i) PUT
          [("Content-Type", "application/json")]
          (Some [("title", t); ("content", c)]) None.

Definition deleteNote (i : string) : Fetch :=
  mkFetch (base ++ "/notes/" ++ i) DELETE [] None None.
End ResourceClient.

(** A call of the resource client, as the controller makes it. *)
Inductive Call :=
| CallFetchNotes
| CallFetchNote (i : string)
| CallCreateNote (t c : string)
| CallUpdateNote (i t c : string)
| CallDeleteNote (i : string).

Definition request (base : string) (c : Call) : Fetch :=
  match c with
  | CallFetchNotes => fetchNotes base
  | CallFetchNote i => fetchNote base i
  | CallCreateNote t c => createNote base t c
  | CallUpdateNote i t c => updateNote base i t c
  | CallDeleteNote i => deleteNote base i
  end.

(** How a call's promise settles.  [Failed] stands for every rejection:
    a transport failure, a response with [ok] false, a body that does not
    parse. *)
Inductive Reply :=
| Failed
| Notes (data : list Note)
| OneNote (data : Note)
| NoContent.

(** The replies a call's declared result type admits. *)
Definition accepts (c : Call) (r : Reply) : bool :=
  match c, r with
  | _, Failed => true
  | CallFetchNotes, Notes _ => true
  | CallFetchNote _, OneNote _ => true
  | CallCreateNote _ _, OneNote _ => true
  | CallUpdateNote _ _ _, OneNote _ => true
  | CallDeleteNote _, NoContent => true
  | _, _ => false
  end.

Definition succeeded (r : Reply) : bool :=
  match r with Failed => false | _ => true end.

(** The code that waits for a call. *)
Inductive Awaiter :=
| InitialLoad    (* the load-on-first-render effect *)
| Refresh        (* [refresh] *)
| ActiveEffect   (* the fetch-on-activeId effect *)
| HandleSave
| HandleDelete.

Definition Pending : Type := (Call * Awaiter)%type.

(** ** Component state *)

(** Local state of a mounted [NoteEditor]; [noteProp] is the identity of
    the [note] prop its effect last ran for. *)
Record Editor := mkEditor {
  noteProp : option Ref;
  localTitle : string;
  localContent : string
}.

Record State := mkState {
  notes : list Note;
  activeId : option string;
  activeNote : option (Ref * Note);
  isNewNote : bool;
  loading : bool;
  error : option string;
  editor : option Editor;     (* [Some] while [NoteEditor] is mounted *)
  inflight : list Pending;    (* requests not yet settled *)
  sent : list Call;           (* every request issued so far, in order *)
  nextRef : Ref
}.

Definition setNotes (v : list Note) (s : State) : State :=
  mkState v (activeId s) (activeNote s) (isNewNote s) (loading s) (error s)
          (editor s) (inflight s) (sent s) (nextRef s).

Definition setActiveId (v : option string) (s : State) : State :=
  mkState (notes s) v (activeNote s) (isNewNote s) (loading s) (error s)
          (editor s) (inflight s) (sent s) (nextRef s).

Definition setActiveNoteObj (v : option (Ref * Note)) (s : State) : State :=
  mkState (notes s) (activeId s) v (isNewNote s) (loading s) (error s)
          (editor s) (inflight s) (sent s) (nextRef s).

Definition setIsNewNote (v : bool) (s : State) : State :=
  mkState (notes s) (activeId s) (activeNote s) v (loading s) (error s)
          (editor s) (inflight s) (sent s) (nextRef s).

Definition setLoading (v : bool) (s : State) : State :=
  mkState (notes s) (activeId s) (activeNote s) (isNewNote s) v (error s)
          (editor s) (inflight s) (sent s) (nextRef s).

Definition setError (v : option string) (s : State) : State :=
  mkState (notes s) (activeId s) (activeNote s) (isNewNote s) (loading s) v
          (editor s) (inflight s) (sent s) (nextRef s).

Definition setEditor (v : option Editor) (s : State) : State :=
  mkState (notes s) (activeId s) (activeNote s) (isNewNote s) (loading s)
          (error s) v (inflight s) (sent s) (nextRef s).

Definition setInflight (v : list Pending) (s : State) : State :=
  mkState (notes s) (activeId s) (activeNote s) (isNewNote s) (loading s)
          (error s) (editor s) v (sent s) (nextRef s).

(** [setActiveNote(v)]: a non-null argument is always a freshly built
    object in this program (an object literal or a parsed response). *)
Definition setActiveNote (v : option Note) (s : State) : State :=
  match v with
  | Some n =>
      mkState (notes s) (activeId s) (Some (nextRef s, n)) (isNewNote s)
              (loading s) (error s) (editor s) (inflight s) (sent s)
              (S (nextRef s))
  | None => setActiveNoteObj None s
  end.

(** Start a request: it goes on the wire and stays pending. *)
Definition issue (c : Call) (a : Awaiter) (s : State) : State :=
  mkState (notes s) (activeId s) (activeNote s) (isNewNote s) (loading s)
          (error s) (editor s) (inflight s ++ [(c, a)]) (sent s ++ [c])
          (nextRef s).

Notation "s |> f" := (f s) (at level 45, left associativity, only parsing).

Definition activeNoteVal (s : State) : option Note :=
  option_map snd (activeNote s).

Definition activeNoteRef (s : State) : option Ref :=
  option_map fst (activeNote s).

(** The draft note [handleAddNew] and the effect build. *)
Definition placeholder : Note := mkNote "new" "" "" "" "".

(** ** NoteEditor *)

(** [note?.title ?? ""] and [note?.content ?? ""]. *)
Definition orEmpty (f : Note -> string) (n : option Note) : string :=
  match n with Some x => f x | None => "" end.

Definition syncEditor (s : State) : Editor :=
  mkEditor (activeNoteRef s)
           (orEmpty title (activeNoteVal s))
           (orEmpty content (activeNoteVal s)).

(** One render of [Home]'s editor pane followed by [NoteEditor]'s effect:
    the editor is present iff [isNewNote || activeNote]; it is initialised
    from the note when it mounts and reset when the [note] prop changes. *)
Definition render (s : State) : State :=
  if isNewNote s || isSome (activeNote s) then
    match editor s with
    | Some e =>
        if optRefEqb (noteProp e) (activeNoteRef s) then s
        else setEditor (Some (syncEditor s)) s
    | None => setEditor (Some (syncEditor s)) s
    end
  else setEditor None s.

Inductive Field := Title | Content.

(** The [onChange] handlers of the two inputs.  [v] is the value the
    input reports; the [maxLength] caps (128 and 4000) are the browser's
    limit on what can be typed, not a check made by this code. *)
Definition editField (f : Field) (v : string) (e : Editor) : Editor :=
  match f with
  | Title => mkEditor (noteProp e) v (localContent e)
  | Content => mkEditor (noteProp e) (localTitle e) v
  end.

(** The [onChange] prop [Home] passes to the editor: [() => {}]. *)
Definition onChange (s : State) : State := s.

(** [disabled] of the save button, [loading] apart. *)
Definition bothEmpty (e : Editor) : bool :=
  (localTitle e =? "") && (localContent e =? "").

(** ** Home: effects and handlers *)

Definition initial : State :=
  mkState [] None None false false None None [] [] 0.

(** Effect: load all notes on first render. *)
Definition initialLoadEffect (s : State) : State :=
  s |> setLoading true |> issue CallFetchNotes InitialLoad.

(** Effect on [activeId, isNewNote]. *)
Definition activeEffect (s : State) : State :=
  if truthy (activeId s) && negb (isNewNote s) then
    match activeId s with
    | Some i => s |> setLoading true |> issue (CallFetchNote i) ActiveEffect
    | None => s
    end
  else if isNewNote s then s |> setActiveNote (Some placeholder)
  else s |> setActiveNote None.

Definition depsChanged (prev s : State) : bool :=
  negb (optStringEqb (activeId prev) (activeId s)
        && Bool.eqb (isNewNote prev) (isNewNote s)).

(** Render the batch [s] that follows the committed state [prev], run the
    effect if its dependencies changed, render what the effect set. *)
Definition commit (prev s : State) : State :=
  let s1 := render s in
  let s2 := if depsChanged prev s1 then activeEffect s1 else s1 in
  render s2.

(** The page after its first render and mount effects. *)
Definition mount : State :=
  render (activeEffect (initialLoadEffect (render initial))).

Definition refresh (s : State) : State :=
  s |> issue CallFetchNotes Refresh.

Definition handleAddNew (s : State) : State :=
  s |> setIsNewNote true
    |> setActiveId (Some "new")
    |> setActiveNote (Some placeholder).

Definition handleSelectNote (i : string) (s : State) : State :=
  s |> setIsNewNote false |> setActiveId (Some i).

(** What [handleSave] and [handleDelete] do once nothing is left to wait
    for: the rest of the [try] block. *)
Definition clearSelection (s : State) : State :=
  s |> setIsNewNote false |> setActiveId None |> setActiveNote None.

(** [handleSave] up to its [await]; with nothing to await it runs to its
    end. *)
Definition handleSave (t c : string) (s : State) : State :=
  let s1 := s |> setLoading true in
  if isNewNote s then s1 |> issue (CallCreateNote t c) HandleSave
  else match activeNote s with
       | Some (_, n) => s1 |> issue (CallUpdateNote (id n) t c) HandleSave
       | None => s1 |> clearSelection |> refresh |> setLoading false
       end.

(** [handleSave] from its [await] on. *)
Definition handleSave_resume (r : Reply) (s : State) : State :=
  if succeeded r
  then s |> clearSelection |> refresh |> setLoading false
  else s |> setError (Some "Could not save note") |> setLoading false.

(** [handleDelete] up to its [await]. *)
Definition handleDelete (s : State) : State :=
  match activeNote s with
  | None => s
  | Some (_, n) =>
      if isNewNote s then s
      else s |> setLoading true |> issue (CallDeleteNote (id n)) HandleDelete
  end.

(** [handleDelete] from its [await] on. *)
Definition handleDelete_resume (r : Reply) (s : State) : State :=
  if succeeded r
  then s |> setActiveId None |> setActiveNote None |> setIsNewNote false
         |> refresh |> setLoading false
  else s |> setError (Some "Could not delete note") |> setLoading false.

(** The continuations of the three [fetch...().then().catch()] chains. *)
Definition initialLoad_resume (r : Reply) (s : State) : State :=
  match r with
  | Notes data => s |> setNotes data |> setLoading false
  | _ => s |> setError (Some "Could not load notes") |> setLoading false
  end.

Definition refresh_resume (r : Reply) (s : State) : State :=
  match r with
  | Notes data => s |> setNotes data
  | _ => s |> setError (Some "Could not load notes")
  end.

Definition activeEffect_resume (r : Reply) (s : State) : State :=
  match r with
  | OneNote data => s |> setActiveNote (Some data) |> setLoading false
  | _ => s |> setError (Some "Could not fetch note") |> setLoading false
  end.

Definition resume (a : Awaiter) (r : Reply) (s : State) : State :=
  match a with
  | InitialLoad => initialLoad_resume r s
  | Refresh => refresh_resume r s
  | ActiveEffect => activeEffect_resume r s
  | HandleSave => handleSave_resume r s
  | HandleDelete => handleDelete_resume r s
  end.

(** ** Events *)

Definition removeAt {A : Type} (k : nat) (l : list A) : list A :=
  firstn k l ++ skipn (S k) l.

(** The sidebar offers an item for each note of the list cache. *)
Definition listed (i : string) (l : list Note) : bool :=
  existsb (fun n => id n =? i) l.

Inductive Event :=
| Select (i : string)            (* click on a sidebar item *)
| New                            (* add button, empty-state button, Ctrl/Cmd-N *)
| Edit (f : Field) (v : string)  (* typing in the title or content input *)
| Save                           (* click on the save button *)
| Delete                         (* click on the delete button *)
| Dismiss                        (* click on the error banner's button *)
| Settle (k : nat) (r : Reply).  (* the k-th pending request settles *)

Definition step (ev : Event) (s : State) : State :=
  match ev with
  | Select i =>
      if listed i (notes s) then commit s (handleSelectNote i s) else s
  | New => commit s (handleAddNew s)
  | Edit f v =>
      match editor s with
      | Some e =>
          if loading s then s
          else s |> setEditor (Some (editField f v e)) |> onChange
      | None => s
      end
  | Save =>
      match editor s with
      | Some e =>
          if loading s || bothEmpty e then s
          else commit s (handleSave (localTitle e) (localContent e) s)
      | None => s
      end
  | Delete =>
      match editor s with
      | Some _ =>
          if isNewNote s || loading s then s
          else commit s (handleDelete s)
      | None => s
      end
  | Dismiss =>
      if truthy (error s) then commit s (setError None s) else s
  | Settle k r =>
      match nth_error (inflight s) k with
      | Some (c, a) =>
          if accepts c r
          then commit s (resume a r (setInflight (removeAt k (inflight s)) s))
          else s
      | None => s
      end
  end.

Definition run (tr : list Event) (s : State) : State :=
  fold_left (fun acc ev => step ev acc) tr s.

(** ** Derived views *)

Inductive Selection := Idle | Drafting | Viewing (i : string).

(** The selection the page acts on: the editor pane, [handleSave] and
    [handleDelete] all branch on [isNewNote] first and [activeNote] next. *)
Definition selection (s : State) : Selection :=
  if isNewNote s then Drafting
  else match activeNote s with
       | Some (_, n) => Viewing (id n)
       | None => Idle
       end.

(** The [selectedId] prop of the sidebar. *)
Definition selectedId (s : State) : option string :=
  if negb (isNewNote s) then activeId s else None.

(** What it means for the triple [(activeId, activeNote, isNewNote)] to
    encode a selection state: a draft is the placeholder note with no
    sidebar item selected; a viewed note is an active note outside draft
    mode; idle is no active note outside draft mode. *)
Definition stateIs (sel : Selection) (s : State) : Prop :=
  match sel with
  | Idle => isNewNote s = false /\ activeNoteVal s = None
  | Drafting =>
      isNewNote s = true /\ activeNoteVal s = Some placeholder /\
      selectedId s = None
  | Viewing i =>
      isNewNote s = false /\
      exists n, activeNoteVal s = Some n /\ id n = i
  end.

(** A note fetch started by an earlier [Select] that resolves while a
    draft is open: nothing cancels it. *)
Definition lateFetch (ev : Event) (s : State) : bool :=
  match ev with
  | Settle k (OneNote _) =>
      match nth_error (inflight s) k with
      | Some (_, ActiveEffect) => isNewNote s
      | _ => false
      end
  | _ => false
  end.

Fixpoint noLateFetch (tr : list Event) (s : State) : bool :=
  match tr with
  | [] => true
  | ev :: tr' => negb (lateFetch ev s) && noLateFetch tr' (step ev s)
  end.

(** Counting the list requests on the wire. *)
Definition isListCall (c : Call) : bool :=
  match c with CallFetchNotes => true | _ => false end.

Definition listRequests (l : list Call) : nat :=
  length (filter isListCall l).

Definition isMutation (c : Call) : bool :=
  match c with
  | CallCreateNote _ _ | CallUpdateNote _ _ _ | CallDeleteNote _ => true
  | _ => false
  end.

(** The event is the successful completion of a create, update or
    delete request. *)
Definition mutationSucceeds (ev : Event) (s : State) : bool :=
  match ev with
  | Settle k r =>
      match nth_error (inflight s) k with
      | Some (c, _) => isMutation c && accepts c r && succeeded r
      | None => false
      end
  | _ => false
  end.

(** The event is a list request resolving with [data]. *)
Definition listReply (ev : Event) (s : State) : option (list Note) :=
  match ev with
  | Settle k (Notes data) =>
      match nth_error (inflight s) k with
      | Some (CallFetchNotes, _) => Some data
      | _ => None
      end
  | _ => None
  end.

(** Every pending request is awaited by the code that issues such
    requests. *)
Definition tagOk (p : Pending) : bool :=
  match p with
  | (CallFetchNotes, InitialLoad) | (CallFetchNotes, Refresh) => true
  | (CallFetchNote _, ActiveEffect) => true
  | (CallCreateNote _ _, HandleSave) => true
  | (CallUpdateNote _ _ _, HandleSave) => true
  | (CallDeleteNote _, HandleDelete) => true
  | _ => false
  end.

Definition wellTagged (s : State) : Prop :=
  forallb tagOk (inflight s) = true.

(** A state is [rendered] when the editor pane agrees with the [Home]
    state it was rendered from: every state the page rests in is. *)
Definition rendered (s : State) : Prop := render s = s.

(** While in draft mode the active note is the placeholder. *)
Definition draftIsPlaceholder (s : State) : Prop :=
  isNewNote s = true -> activeNoteVal s = Some placeholder.

(** The request [handleSave] issues when there is something to edit. *)
Definition saveCall (t c : string) (s : State) : Call :=
  if isNewNote s then CallCreateNote t c
  else match activeNote s with
       | Some (_, n) => CallUpdateNote (id n) t c
       | None => CallFetchNotes
       end.

(** ** Sample data and runs *)

Definition note1 : Note := mkNote "1" "Groceries" "Milk" "t1" "t1".

(** The page once the initial list, holding [note1], has arrived. *)
Definition loaded : State := run [Settle 0 (Notes [note1])] mount.

(** A draft titled Hi. *)
Definition drafting : State := run [New; Edit Title "Hi"] loaded.

(** [note1] open in the editor. *)
Definition viewing1 : State :=
  run [Select "1"; Settle 0 (OneNote note1)] loaded.

(** ** Basic facts about rendering and committing *)

Definition note2 : Note := mkNote "2" "Chores" "Sweep" "t2" "t2".

(** [note1] open and edited, with [note2] listed beside it. *)
Definition editing1 : State :=
  run [Settle 0 (Notes [note1; note2]); Select "1";
       Settle 0 (OneNote note1); Edit Content "Milk, eggs"] mount.

(** ** The sidebar view *)

(** [classes.filter(Boolean).join(" ")]. *)
Definition classNames (classes : list string) : string :=
  String.concat " " (filter (fun c => negb (c =? "")) classes).

Definition newline : Ascii.ascii := "010"%char.

(** [.replace(/\n/g, " ")]. *)
Fixpoint replaceNewlines (s : string) : string :=
  match s with
  | EmptyString => EmptyString
  | String c r =>
      String (if Ascii.eqb c newline then " "%char else c)
             (replaceNewlines r)
  end.

(** What the sidebar shows for one note: the [li]'s key and class, the
    title line and the one-line excerpt of the content.  A character of
    a string stands for one code unit of the JavaScript string. *)
Record Item := mkItem {
  itemKey : string;
  itemClass : string;
  itemTitle : string;
  itemSnippet : string
}.

Definition sidebarItem (sel : option string) (n : Note) : Item :=
  mkItem (id n)
         (classNames
            ["cursor-pointer px-4 py-3 border-b border-gray-100 hover:bg-accent/30";
             if optStringEqb sel (Some (id n))
             then "bg-accent/60" else "bg-transparent"])
         (if title n =? "" then "Untitled" else title n)
         (substring 0 50 (replaceNewlines (content n))).

(** The items of the sidebar as [Home] renders it. *)
Definition Sidebar (s : State) : list Item :=
  map (sidebarItem (selectedId s)) (notes s).

Definition highlighted (it : Item) : bool :=
  itemClass it
  =? "cursor-pointer px-4 py-3 border-b border-gray-100 hover:bg-accent/30 bg-accent/60".

(** ** Bookkeeping for the run invariants *)

(** The object in [activeNote] was allocated before [nextRef]. *)
Definition refsBelow (s : State) : Prop :=
  match activeNote s with
  | Some (r, _) => r < nextRef s
  | None => True
  end.

(** Requests whose continuation ends by clearing [loading]: all but the
    ones [refresh] makes. *)
Definition clearsLoading (p : Pending) : bool :=
  match snd p with Refresh => false | _ => true end.

(** While [loading] is set, a request that will clear it is pending. *)
Definition busy (s : State) : Prop :=
  loading s = true -> existsb clearsLoading (inflight s) = true.

(** The message each [catch] puts in the error slot. *)
Definition errorMessage (a : Awaiter) : string :=
  match a with
  | InitialLoad | Refresh => "Could not load notes"
  | ActiveEffect => "Could not fetch note"
  | HandleSave => "Could not save note"
  | HandleDelete => "Could not delete note"
  end.

(** The error slot after an event, as the handlers leave it. *)
Definition errorAfter (ev : Event) (s : State) : option string :=
  match ev with
  | Dismiss => if truthy (error s) then None else error s
  | Settle k Failed =>
      match nth_error (inflight s) k with
      | Some (_, a) => Some (errorMessage a)
      | None => error s
      end
  | _ => error s
  end.

(** A note fetch names a note. *)
Definition fetchesNamedNote (c : Call) : bool :=
  match c with
  | CallFetchNote i => negb (i =? "")
  | _ => true
  end.

Ltac split_ifs :=
  repeat match goal with
         | |- context [if ?b then _ else _] => destruct b eqn:?
         | |- context [match ?o with Some _ => _ | None => _ end] =>
             destruct o eqn:?
         | |- context [match ?p with pair _ _ => _ end] => destruct p eqn:?
         end.

Lemma optRefEqb_refl (o : option Ref) : optRefEqb o o = true.
Proof. destruct o; simpl; auto using Nat.eqb_refl. Qed.

Lemma optStringEqb_refl (o : option string) : optStringEqb o o = true.
Proof. destruct o; simpl; auto using String.eqb_refl. Qed.

Lemma optStringEqb_eq (a b : option string) :
  optStringEqb a b = true <-> a = b.
Proof.
  destruct a, b; simpl; split; intros H; try discriminate; auto.
  - apply String.eqb_eq in H. congruence.
  - inversion H. apply String.eqb_refl.
Qed.

Lemma depsChanged_same (s s' : State) :
  activeId s' = activeId s -> isNewNote s' = isNewNote s ->
  depsChanged s s' = false.
Proof.
  intros Ha Hn. unfold depsChanged. rewrite Ha, Hn.
  rewrite optStringEqb_refl, Bool.eqb_reflx. reflexivity.
Qed.

Lemma render_idem (s : State) : render (render s) = render s.
Proof.
  destruct s as [ns ai an inn ld er ed fl se nr].
  unfold render, activeNoteRef; simpl.
  destruct (inn || isSome an) eqn:Hv; simpl; rewrite ?Hv; simpl; auto.
  destruct ed as [e|]; simpl.
  - destruct (optRefEqb (noteProp e) (option_map fst an)) eqn:He;
      simpl; rewrite ?Hv; simpl; rewrite ?He; auto.
    rewrite optRefEqb_refl. reflexivity.
  - rewrite Hv. simpl. rewrite optRefEqb_refl. reflexivity.
Qed.

Lemma commit_rendered (p s : State) : rendered (commit p s).
Proof. unfold rendered, commit. apply render_idem. Qed.

Lemma mount_rendered : rendered mount.
Proof. reflexivity. Qed.

(** In a rendered state the editor is mounted exactly when there is
    something to edit. *)
Lemma rendered_editor_visible (s : State) :
  rendered s -> isSome (editor s) = isNewNote s || isSome (activeNote s).
Proof.
  unfold rendered, render. intros H.
  destruct (isNewNote s || isSome (activeNote s)) eqn:Hv.
  - destruct (editor s) as [e|] eqn:He; auto.
    rewrite <- H in He. simpl in He. discriminate.
  - rewrite <- H. reflexivity.
Qed.

Lemma rendered_noteProp (s : State) (e : Editor) :
  rendered s -> editor s = Some e -> noteProp e = activeNoteRef s.
Proof.
  unfold rendered, render. intros H He.
  destruct (isNewNote s || isSome (activeNote s)) eqn:Hv.
  - rewrite He in H.
    destruct (optRefEqb (noteProp e) (activeNoteRef s)) eqn:Hr.
    + destruct (noteProp e), (activeNoteRef s); simpl in Hr;
        try discriminate; auto.
      apply Nat.eqb_eq in Hr. congruence.
    + rewrite <- H in He. simpl in He. inversion He. reflexivity.
  - rewrite <- H in He. simpl in He. discriminate.
Qed.

(** Rendering again after an update that leaves [isNewNote] and the
    [activeNote] object alone leaves the editor alone. *)
Lemma render_stable (s s' : State) :
  rendered s ->
  isNewNote s' = isNewNote s -> activeNote s' = activeNote s ->
  editor s' = editor s ->
  render s' = s'.
Proof.
  intros Hr Hn Ha He.
  pose proof (rendered_editor_visible s Hr) as Hv.
  unfold render. rewrite Hn, Ha, He.
  destruct (editor s) as [e|] eqn:Hed; simpl in Hv; rewrite <- Hv.
  - unfold activeNoteRef. rewrite Ha.
    rewrite (rendered_noteProp s e Hr Hed). unfold activeNoteRef.
    rewrite optRefEqb_refl. reflexivity.
  - destruct s'; simpl in *. subst. reflexivity.
Qed.

Lemma commit_stable (s s' : State) :
  rendered s ->
  activeId s' = activeId s -> isNewNote s' = isNewNote s ->
  activeNote s' = activeNote s -> editor s' = editor s ->
  commit s s' = s'.
Proof.
  intros Hr Hi Hn Ha He. unfold commit.
  rewrite (render_stable s s' Hr Hn Ha He).
  rewrite (depsChanged_same _ _ Hi Hn).
  apply (render_stable s s' Hr Hn Ha He).
Qed.

Lemma step_rendered (ev : Event) (s : State) :
  rendered s -> rendered (step ev s).
Proof.
  intros Hr. destruct ev; simpl; split_ifs; auto using commit_rendered.
  unfold onChange. unfold rendered.
  pose proof (rendered_editor_visible s Hr) as Hv.
  pose proof (rendered_noteProp s _ Hr Heqo) as Hp.
  unfold render; simpl. rewrite Heqo in Hv. simpl in Hv. rewrite <- Hv.
  destruct f; simpl; unfold activeNoteRef in *; simpl; rewrite Hp;
    rewrite optRefEqb_refl; reflexivity.
Qed.

Lemma run_rendered (tr : list Event) (s : State) :
  rendered s -> rendered (run tr s).
Proof.
  revert s. induction tr as [|ev tr IH]; intros s Hr; simpl; auto.
  apply IH. apply step_rendered. exact Hr.
Qed.

(** ** What one settled request does *)

Lemma nth_error_snoc {A : Type} (l : list A) (x : A) :
  nth_error (l ++ [x]) (length l) = Some x.
Proof.
  rewrite nth_error_app2 by lia. rewrite Nat.sub_diag. reflexivity.
Qed.

Lemma removeAt_snoc {A : Type} (l : list A) (x : A) :
  removeAt (length l) (l ++ [x]) = l.
Proof.
  unfold removeAt. induction l as [|y l IH]; simpl; auto.
  f_equal. exact IH.
Qed.

(** A rejected request of any kind runs its [catch] and [finally] and
    nothing else: no render changes the editor, no effect runs. *)
Lemma settle_failed (s : State) (k : nat) (c : Call) (a : Awaiter) :
  rendered s ->
  nth_error (inflight s) k = Some (c, a) ->
  step (Settle k Failed) s
  = resume a Failed (setInflight (removeAt k (inflight s)) s).
Proof.
  intros Hr Hk. simpl. rewrite Hk.
  replace (accepts c Failed) with true by (destruct c; reflexivity).
  apply commit_stable; auto; destruct a; reflexivity.
Qed.

(** A list reply replaces the cache and touches nothing else but, after
    the initial load, the [loading] flag. *)
Lemma settle_notes (s : State) (k : nat) (a : Awaiter) (data : list Note) :
  rendered s ->
  a = InitialLoad \/ a = Refresh ->
  nth_error (inflight s) k = Some (CallFetchNotes, a) ->
  step (Settle k (Notes data)) s
  = resume a (Notes data) (setInflight (removeAt k (inflight s)) s).
Proof.
  intros Hr Ha Hk. simpl. rewrite Hk. simpl.
  apply commit_stable; auto; destruct Ha; subst; reflexivity.
Qed.

(** Fields a render never touches. *)
Lemma render_frame (s : State) :
  notes (render s) = notes s /\ activeId (render s) = activeId s /\
  activeNote (render s) = activeNote s /\
  isNewNote (render s) = isNewNote s /\ loading (render s) = loading s /\
  error (render s) = error s /\ inflight (render s) = inflight s /\
  sent (render s) = sent s /\ nextRef (render s) = nextRef s.
Proof. unfold render. split_ifs; simpl; repeat split; reflexivity. Qed.

(** After [clearSelection] nothing is selected, whatever was before, and
    the effect, if it runs, fetches nothing. *)
Lemma commit_cleared (p s : State) :
  isNewNote s = false -> activeId s = None -> activeNote s = None ->
  let s' := commit p s in
  isNewNote s' = false /\ activeId s' = None /\ activeNote s' = None /\
  editor s' = None /\
  notes s' = notes s /\ loading s' = loading s /\ error s' = error s /\
  inflight s' = inflight s /\ sent s' = sent s.
Proof.
  intros Hn Hi Ha.
  destruct s as [ns ai an inn ld er ed fl se nr]. simpl in *. subst.
  unfold commit, render, activeEffect. simpl.
  destruct (depsChanged p _); simpl; repeat split; reflexivity.
Qed.

(** ** Save, delete and edit *)

Lemma step_save_issues (s : State) (e : Editor) :
  rendered s -> editor s = Some e ->
  loading s = false -> bothEmpty e = false ->
  step Save s
  = s |> setLoading true
      |> issue (saveCall (localTitle e) (localContent e) s) HandleSave.
Proof.
  intros Hr He Hl Hb.
  pose proof (rendered_editor_visible s Hr) as Hv.
  rewrite He in Hv. simpl in Hv.
  simpl. rewrite He, Hl, Hb. simpl.
  unfold handleSave, saveCall.
  destruct (isNewNote s) eqn:Hn.
  - apply commit_stable; auto.
  - destruct (activeNote s) as [[r n]|] eqn:Ha; simpl in Hv;
      try discriminate.
    apply commit_stable; auto.
Qed.

Lemma step_delete_issues (s : State) (r : Ref) (n : Note) :
  rendered s -> activeNote s = Some (r, n) -> isNewNote s = false ->
  loading s = false ->
  step Delete s
  = s |> setLoading true |> issue (CallDeleteNote (id n)) HandleDelete.
Proof.
  intros Hr Ha Hn Hl.
  pose proof (rendered_editor_visible s Hr) as Hv.
  rewrite Ha, Hn in Hv. simpl in Hv.
  simpl. destruct (editor s) as [e|] eqn:He; simpl in Hv; try discriminate.
  rewrite Hn, Hl. simpl. unfold handleDelete. rewrite Ha, Hn.
  apply commit_stable; auto.
Qed.

(** ** A run of the whole page *)

(** An empty list arrives, a draft titled Hi is created and saved, the
    server answers with the stored note and then lists it. *)
Example scenario_create :
  let stored := mkNote "1" "Hi" "" "t1" "t1" in
  let s := run [Settle 0 (Notes []); New; Edit Title "Hi"; Save] mount in
  let s' := run [Settle 0 (OneNote stored); Settle 0 (Notes [stored])] s in
  selection s = Drafting /\
  sent s = [CallFetchNotes; CallCreateNote "Hi" ""] /\
  body (request default_API_URL (CallCreateNote "Hi" ""))
  = Some [("title", "Hi"); ("content", "")] /\
  notes s' = [stored] /\ selection s' = Idle /\ error s' = None.
Proof. cbv zeta. repeat split; reflexivity. Qed.

(** The both-fields-empty rule lives in the save button only:
    [handleSave] called with two empty strings while drafting would send
    the create request. *)
Remark handleSave_has_no_empty_guard :
  sent (handleSave "" "" (run [New] loaded))
  = sent (run [New] loaded) ++ [CallCreateNote "" ""].
Proof. reflexivity. Qed.

(** C3: a click on Save while the draft's title and content are both
    empty does nothing: the state is the same state, so no request went
    out and selection, draft, list cache and error slot are as before. *)
Theorem C3_save_empty_draft_noop (s : State) (e : Editor) :
  editor s = Some e -> localTitle e = "" -> localContent e = "" ->
  step Save s = s /\ sent (step Save s) = sent s /\
  inflight (step Save s) = inflight s.
Proof.
  intros He Ht Hc.
  assert (Hs : step Save s = s).
  { simpl. rewrite He. unfold bothEmpty. rewrite Ht, Hc. simpl.
    rewrite orb_true_r. reflexivity. }
  rewrite Hs. auto.
Qed.

Lemma C3_witness :
  let s := run [New] loaded in
  step Save s = s /\ sent (step Save s) = sent s /\
  inflight (step Save s) = inflight s.
Proof.
  apply (C3_save_empty_draft_noop (run [New] loaded) (mkEditor (Some 1) "" ""));
    reflexivity.
Defined.

(** C4: when the request of a Save is rejected, the selection (and the
    three cells it is derived from), the draft buffer and the list cache
    are what they were before the Save, no list request is issued, and
    the error slot holds the save-failed message. *)
Theorem C4_failed_save_keeps_state (s : State) (e : Editor) :
  rendered s -> editor s = Some e ->
  loading s = false -> bothEmpty e = false ->
  let k := length (inflight s) in
  let s1 := step Save s in
  let s2 := step (Settle k Failed) s1 in
  (exists c, isMutation c = true /\ sent s1 = sent s ++ [c] /\
             nth_error (inflight s1) k = Some (c, HandleSave)) /\
  selection s2 = selection s /\
  isNewNote s2 = isNewNote s /\ activeId s2 = activeId s /\
  activeNote s2 = activeNote s /\
  editor s2 = editor s /\
  notes s2 = notes s /\
  sent s2 = sent s1 /\ inflight s2 = inflight s /\
  loading s2 = loading s /\
  error s2 = Some "Could not save note".
Proof.
  intros Hr He Hl Hb k s1 s2.
  pose proof (step_save_issues s e Hr He Hl Hb) as H1.
  fold s1 in H1.
  assert (Hk : nth_error (inflight s1) k
               = Some (saveCall (localTitle e) (localContent e) s, HandleSave)).
  { rewrite H1. simpl. apply nth_error_snoc. }
  assert (Hr1 : rendered s1) by (apply step_rendered; exact Hr).
  pose proof (settle_failed s1 k _ _ Hr1 Hk) as H2. fold s2 in H2.
  assert (Hm : isMutation (saveCall (localTitle e) (localContent e) s) = true).
  { pose proof (rendered_editor_visible s Hr) as Hv.
    rewrite He in Hv. simpl in Hv. unfold saveCall.
    destruct (isNewNote s); auto.
    destruct (activeNote s) as [[r n]|]; simpl in Hv; try discriminate; auto. }
  split.
  { eexists. split; [exact Hm|]. split; [|exact Hk]. rewrite H1. reflexivity. }
  rewrite H2. simpl. rewrite H1. simpl.
  unfold k. rewrite removeAt_snoc, Hl. unfold selection. simpl.
  repeat split; reflexivity.
Qed.

Lemma C4_witness :
  let s := drafting in
  let s2 := step (Settle (length (inflight s)) Failed) (step Save s) in
  selection s2 = Drafting /\ editor s2 = editor s /\
  error s2 = Some "Could not save note".
Proof.
  pose proof (C4_failed_save_keeps_state drafting
                (mkEditor (Some 1) "Hi" "")
                eq_refl eq_refl eq_refl eq_refl) as H.
  cbv zeta in H.
  destruct H as (_ & Hsel & _ & _ & _ & Hed & _ & _ & _ & _ & Herr).
  split; [exact Hsel | split; [exact Hed | exact Herr]].
Defined.

(** C5: a Delete in Viewing(id) issues delete(id); when that request is
    rejected the error slot holds the delete-failed message, the page is
    still Viewing(id), the draft buffer and the list cache are untouched
    and no list request is issued.  Outside Viewing(id) a Delete does
    nothing, as a click and as a call of the handler. *)
Theorem C5_failed_delete_keeps_state (s : State) :
  rendered s -> loading s = false ->
  match selection s with
  | Viewing i =>
      let k := length (inflight s) in
      let s1 := step Delete s in
      let s2 := step (Settle k Failed) s1 in
      sent s1 = sent s ++ [CallDeleteNote i] /\
      nth_error (inflight s1) k = Some (CallDeleteNote i, HandleDelete) /\
      error s2 = Some "Could not delete note" /\
      selection s2 = Viewing i /\
      activeNote s2 = activeNote s /\
      editor s2 = editor s /\
      notes s2 = notes s /\
      sent s2 = sent s1 /\ inflight s2 = inflight s /\
      loading s2 = loading s
  | _ => step Delete s = s /\ handleDelete s = s
  end.
Proof.
  intros Hr Hl.
  pose proof (rendered_editor_visible s Hr) as Hv.
  destruct (isNewNote s) eqn:Hn.
  - replace (selection s) with Drafting by (unfold selection; now rewrite Hn).
    split.
    + simpl. rewrite Hn. simpl. destruct (editor s); reflexivity.
    + unfold handleDelete. rewrite Hn.
      destruct (activeNote s) as [[r n]|]; reflexivity.
  - destruct (activeNote s) as [[r n]|] eqn:Ha.
    + replace (selection s) with (Viewing (id n))
        by (unfold selection; now rewrite Hn, Ha).
      cbv beta iota. intros k s1 s2.
      pose proof (step_delete_issues s r n Hr Ha Hn Hl) as H1. fold s1 in H1.
      assert (Hk : nth_error (inflight s1) k
                   = Some (CallDeleteNote (id n), HandleDelete)).
      { rewrite H1. simpl. apply nth_error_snoc. }
      assert (Hr1 : rendered s1) by (apply step_rendered; exact Hr).
      pose proof (settle_failed s1 k _ _ Hr1 Hk) as H2. fold s2 in H2.
      split; [rewrite H1; reflexivity|]. split; [exact Hk|].
      rewrite H2. simpl. rewrite H1. simpl.
      unfold k. rewrite removeAt_snoc, Hl. unfold selection. simpl.
      rewrite Hn, Ha.
      repeat split; reflexivity.
    + replace (selection s) with Idle
        by (unfold selection; now rewrite Hn, Ha).
      simpl in Hv. split.
      * simpl. destruct (editor s); simpl in Hv; try discriminate.
        reflexivity.
      * unfold handleDelete. rewrite Ha. reflexivity.
Qed.

Lemma C5_witness :
  let s := viewing1 in
  let s1 := step Delete s in
  let s2 := step (Settle 0 Failed) s1 in
  sent s1 = sent s ++ [CallDeleteNote "1"] /\
  error s2 = Some "Could not delete note" /\
  selection s2 = Viewing "1" /\ editor s2 = editor s.
Proof.
  pose proof (C5_failed_delete_keeps_state viewing1 eq_refl eq_refl) as H.
  change (selection viewing1) with (Viewing "1") in H.
  cbv zeta in H.
  destruct H as (H1 & _ & H2 & H3 & _ & H4 & _).
  split; [exact H1 | split; [exact H2 | split; [exact H3 | exact H4]]].
Defined.

(** A resolved save or delete request clears the selection and starts a
    refresh of the list. *)
Lemma settle_mutation_ok (s : State) (k : nat) (c : Call) (a : Awaiter)
      (r : Reply) :
  a = HandleSave \/ a = HandleDelete ->
  nth_error (inflight s) k = Some (c, a) ->
  accepts c r = true -> succeeded r = true ->
  let s' := step (Settle k r) s in
  isNewNote s' = false /\ activeId s' = None /\ activeNote s' = None /\
  editor s' = None /\
  notes s' = notes s /\ loading s' = false /\ error s' = error s /\
  inflight s' = removeAt k (inflight s) ++ [(CallFetchNotes, Refresh)] /\
  sent s' = sent s ++ [CallFetchNotes].
Proof.
  intros Ha Hk Hacc Hok s'. unfold s'. simpl. rewrite Hk, Hacc.
  destruct Ha; subst a; simpl; unfold handleSave_resume,
    handleDelete_resume; rewrite Hok;
    match goal with
    | |- context [commit ?p ?q] =>
        pose proof (commit_cleared p q eq_refl eq_refl eq_refl) as H
    end;
    cbv zeta in H; simpl in H; simpl; intuition.
Qed.

(** C6: a Save that goes out issues create(title, content) when drafting
    and update(id, title, content) when viewing note id; when that request
    succeeds the selection is Idle and a list request is issued, and when
    the list arrives it becomes the list cache, so the created note is in
    the cache as soon as the list the server returns holds it. *)
Theorem C6_successful_save (s : State) (e : Editor) (n : Note)
        (data : list Note) :
  rendered s -> editor s = Some e ->
  loading s = false -> bothEmpty e = false ->
  let k := length (inflight s) in
  let s1 := step Save s in
  let s2 := step (Settle k (OneNote n)) s1 in
  let s3 := step (Settle k (Notes data)) s2 in
  match selection s with
  | Drafting =>
      sent s1 = sent s ++ [CallCreateNote (localTitle e) (localContent e)]
  | Viewing i =>
      sent s1 = sent s ++ [CallUpdateNote i (localTitle e) (localContent e)]
  | Idle => False
  end /\
  selection s2 = Idle /\ activeId s2 = None /\
  sent s2 = sent s1 ++ [CallFetchNotes] /\
  nth_error (inflight s2) k = Some (CallFetchNotes, Refresh) /\
  notes s3 = data /\ selection s3 = Idle /\ sent s3 = sent s2 /\
  (In n data -> In n (notes s3)).
Proof.
  intros Hr He Hl Hb k s1 s2 s3.
  pose proof (step_save_issues s e Hr He Hl Hb) as H1. fold s1 in H1.
  pose proof (rendered_editor_visible s Hr) as Hv.
  rewrite He in Hv. simpl in Hv.
  set (c := saveCall (localTitle e) (localContent e) s) in *.
  assert (Hk : nth_error (inflight s1) k = Some (c, HandleSave)).
  { rewrite H1. simpl. apply nth_error_snoc. }
  assert (Hacc : accepts c (OneNote n) = true).
  { unfold c, saveCall. destruct (isNewNote s); auto.
    destruct (activeNote s) as [[r m]|]; simpl in Hv; try discriminate; auto. }
  pose proof (settle_mutation_ok s1 k c HandleSave (OneNote n)
                (or_introl eq_refl) Hk Hacc eq_refl) as H2.
  cbv zeta in H2. fold s2 in H2.
  destruct H2 as (Hn2 & Hi2 & Ha2 & _ & Hno2 & _ & _ & Hfl2 & Hse2).
  assert (Hfl : inflight s2 = inflight s ++ [(CallFetchNotes, Refresh)]).
  { rewrite Hfl2, H1. simpl. unfold k. rewrite removeAt_snoc. reflexivity. }
  assert (Hk2 : nth_error (inflight s2) k = Some (CallFetchNotes, Refresh)).
  { rewrite Hfl. apply nth_error_snoc. }
  assert (Hr2 : rendered s2).
  { unfold s2. apply step_rendered. unfold s1. apply step_rendered. exact Hr. }
  pose proof (settle_notes s2 k Refresh data Hr2 (or_intror eq_refl) Hk2) as H3.
  fold s3 in H3.
  split.
  { unfold selection. rewrite H1. simpl. unfold c, saveCall.
    destruct (isNewNote s); auto.
    destruct (activeNote s) as [[r m]|]; simpl in Hv; try discriminate; auto. }
  split. { unfold selection. rewrite Hn2, Ha2. reflexivity. }
  split. { exact Hi2. }
  split. { exact Hse2. }
  split. { exact Hk2. }
  assert (Hn3 : notes s3 = data) by (rewrite H3; reflexivity).
  split. { exact Hn3. }
  split. { rewrite H3. unfold selection. simpl. rewrite Hn2, Ha2. reflexivity. }
  split. { rewrite H3. reflexivity. }
  rewrite Hn3. auto.
Qed.

Lemma C6_witness :
  let s := drafting in
  let s1 := step Save s in
  let s2 := step (Settle 0 (OneNote (mkNote "2" "Hi" "" "t2" "t2"))) s1 in
  let s3 :=
    step (Settle 0 (Notes [note1; mkNote "2" "Hi" "" "t2" "t2"])) s2 in
  sent s1 = sent s ++ [CallCreateNote "Hi" ""] /\
  selection s2 = Idle /\
  In (mkNote "2" "Hi" "" "t2" "t2") (notes s3).
Proof.
  pose proof (C6_successful_save drafting (mkEditor (Some 1) "Hi" "")
                (mkNote "2" "Hi" "" "t2" "t2")
                [note1; mkNote "2" "Hi" "" "t2" "t2"]
                eq_refl eq_refl eq_refl eq_refl) as H.
  change (selection drafting) with Drafting in H.
  cbv zeta in H.
  destruct H as (H1 & H2 & _ & _ & _ & _ & _ & _ & H3).
  split; [exact H1 | split; [exact H2 | apply H3; simpl; auto]].
Defined.

(** C7: typing in the title or content input changes the editor's local
    fields and nothing else: the list cache, the selection and its three
    cells, the error slot, the loading flag and the requests sent or
    pending are the same.  With a note selected or drafted the typed
    value lands in the draft buffer (unless the inputs are disabled by
    [loading]); with nothing selected the state is the same state. *)
Theorem C7_edit_touches_draft_only (s : State) (f : Field) (v : string) :
  rendered s ->
  let s' := step (Edit f v) s in
  notes s' = notes s /\ selection s' = selection s /\
  activeId s' = activeId s /\ activeNote s' = activeNote s /\
  isNewNote s' = isNewNote s /\
  loading s' = loading s /\ error s' = error s /\
  inflight s' = inflight s /\ sent s' = sent s /\
  match selection s with
  | Idle => s' = s
  | _ =>
      exists e, editor s = Some e /\
                editor s' = Some (if loading s then e else editField f v e)
  end.
Proof.
  intros Hr.
  pose proof (rendered_editor_visible s Hr) as Hv.
  assert (Hsel : match selection s with
                 | Idle => editor s = None
                 | _ => exists e, editor s = Some e
                 end).
  { unfold selection.
    destruct (isNewNote s); [|destruct (activeNote s) as [[r n]|]];
      simpl in Hv; destruct (editor s) as [e|]; simpl in Hv;
        try discriminate Hv; eauto. }
  simpl. unfold onChange. unfold selection at 1 2.
  destruct (editor s) as [e|] eqn:He.
  - destruct (loading s) eqn:Hl; simpl; rewrite ?He, ?Hl;
      (repeat (split; [reflexivity|]));
      destruct (selection s); try discriminate Hsel;
        exists e; split; reflexivity.
  - (repeat (split; [reflexivity|])).
    destruct (selection s); try reflexivity;
      destruct Hsel as [e' He']; discriminate He'.
Qed.

Lemma C7_witness :
  let s := run [New] loaded in
  let s' := step (Edit Title "Hi") s in
  notes s' = notes s /\ selection s' = selection s /\
  editor s' = Some (mkEditor (Some 1) "Hi" "").
Proof.
  pose proof (C7_edit_touches_draft_only (run [New] loaded) Title "Hi"
                eq_refl) as H.
  cbv zeta in H.
  change (selection (run [New] loaded)) with Drafting in H.
  destruct H as (H1 & H2 & _ & _ & _ & _ & _ & _ & _ & e & He & H3).
  split; [exact H1 | split; [exact H2|]].
  rewrite H3. f_equal.
  assert (Hee : Some e = Some (mkEditor (Some 1) "" ""))
    by (rewrite <- He; reflexivity).
  inversion Hee. reflexivity.
Defined.

(** C10: [handleSave] run in a state that is neither drafting nor has an
    active note issues no create and no update request, and all the same
    resets the selection to Idle and issues a list request. *)
Theorem C10_save_with_nothing_active (s : State) (t c : string) :
  isNewNote s = false -> activeNote s = None ->
  let s' := commit s (handleSave t c s) in
  sent s' = sent s ++ [CallFetchNotes] /\
  inflight s' = inflight s ++ [(CallFetchNotes, Refresh)] /\
  selection s' = Idle /\
  isNewNote s' = false /\ activeId s' = None /\ activeNote s' = None /\
  loading s' = false /\ notes s' = notes s /\ error s' = error s.
Proof.
  intros Hn Ha s'. unfold s', handleSave. rewrite Hn, Ha.
  match goal with
  | |- context [commit ?p ?q] =>
      pose proof (commit_cleared p q eq_refl eq_refl eq_refl) as H
  end.
  cbv zeta in H. simpl in H. unfold selection.
  destruct H as (H1 & H2 & H3 & _ & H4 & H5 & H6 & H7 & H8).
  rewrite H1, H2, H3, H4, H5, H6, H7, H8. repeat split; reflexivity.
Qed.

Lemma C10_witness :
  let s' := commit loaded (handleSave "Hi" "" loaded) in
  sent s' = sent loaded ++ [CallFetchNotes] /\ selection s' = Idle.
Proof.
  pose proof (C10_save_with_nothing_active loaded "Hi" "" eq_refl eq_refl)
    as H.
  cbv zeta in H. destruct H as (H1 & _ & H2 & _).
  split; [exact H1 | exact H2].
Defined.

(** ** Selecting a note *)

(** A Select of a listed note other than the active id, outside draft
    mode, sets [activeId] and starts the fetch; the active note and the
    editor stay. *)
Lemma step_select_issues (s : State) (i : string) :
  rendered s -> isNewNote s = false ->
  listed i (notes s) = true -> i <> "" -> activeId s <> Some i ->
  step (Select i) s
  = s |> handleSelectNote i |> setLoading true
      |> issue (CallFetchNote i) ActiveEffect.
Proof.
  intros Hr Hn Hl Hi Hne. simpl. rewrite Hl. unfold commit.
  assert (Hs : render (handleSelectNote i s) = handleSelectNote i s)
    by (apply (render_stable s); auto).
  rewrite Hs.
  assert (Hd : depsChanged s (handleSelectNote i s) = true).
  { unfold depsChanged. simpl.
    destruct (optStringEqb (activeId s) (Some i)) eqn:Heq; auto.
    apply optStringEqb_eq in Heq. contradiction. }
  rewrite Hd. unfold activeEffect. simpl.
  destruct (i =? "") eqn:Hie; [apply String.eqb_eq in Hie; contradiction|].
  simpl. apply (render_stable s); auto.
Qed.

(** C2, as the code has it: when the fetch of a Select made outside
    draft mode is rejected, the error slot holds the fetch-failed message
    and the active note, so the derived selection, the draft buffer and
    the list cache are what they were before the Select; [activeId] is
    the selected id. *)
Theorem C2_failed_select_outside_draft (s : State) (i : string) :
  rendered s -> isNewNote s = false ->
  listed i (notes s) = true -> i <> "" -> activeId s <> Some i ->
  let k := length (inflight s) in
  let s1 := step (Select i) s in
  let s2 := step (Settle k Failed) s1 in
  sent s1 = sent s ++ [CallFetchNote i] /\
  nth_error (inflight s1) k = Some (CallFetchNote i, ActiveEffect) /\
  error s2 = Some "Could not fetch note" /\
  selection s2 = selection s /\
  activeNote s2 = activeNote s /\ isNewNote s2 = false /\
  activeId s2 = Some i /\
  editor s2 = editor s /\ notes s2 = notes s /\
  sent s2 = sent s1 /\ inflight s2 = inflight s.
Proof.
  intros Hr Hn Hl Hi Hne k s1 s2.
  pose proof (step_select_issues s i Hr Hn Hl Hi Hne) as H1. fold s1 in H1.
  assert (Hk : nth_error (inflight s1) k
               = Some (CallFetchNote i, ActiveEffect)).
  { rewrite H1. simpl. apply nth_error_snoc. }
  assert (Hr1 : rendered s1) by (apply step_rendered; exact Hr).
  pose proof (settle_failed s1 k _ _ Hr1 Hk) as H2. fold s2 in H2.
  split; [rewrite H1; reflexivity|]. split; [exact Hk|].
  rewrite H2. simpl. rewrite H1. simpl.
  unfold k. rewrite removeAt_snoc. unfold selection. simpl. rewrite Hn.
  repeat split; reflexivity.
Qed.

Lemma C2_witness :
  let s := loaded in
  let s2 := step (Settle 0 Failed) (step (Select "1") s) in
  error s2 = Some "Could not fetch note" /\ selection s2 = Idle.
Proof.
  assert (Hi : "1" <> "") by discriminate.
  assert (Hne : activeId loaded <> Some "1") by discriminate.
  pose proof (C2_failed_select_outside_draft loaded "1"
                eq_refl eq_refl eq_refl Hi Hne) as H.
  cbv zeta in H. destruct H as (_ & _ & H1 & H2 & _).
  split; [exact H1 | exact H2].
Defined.

(** C2, as stated, fails for a Select made while drafting: the fetch is
    rejected, the error is set, and the page is no longer Drafting but
    editing the placeholder note as if it were a stored one. *)
Lemma C2_select_from_draft_leaves_draft_mode :
  let s := run [New] loaded in
  let s1 := step (Select "1") s in
  let s2 := step (Settle 0 Failed) s1 in
  selection s = Drafting /\
  nth_error (inflight s1) 0 = Some (CallFetchNote "1", ActiveEffect) /\
  error s2 = Some "Could not fetch note" /\
  selection s2 = Viewing "new" /\
  selection s2 <> selection s.
Proof.
  cbv zeta. repeat split; try reflexivity.
  vm_compute. discriminate.
Qed.

(** ** The placeholder id *)

(** C9 fails on the code: after a Select whose fetch is rejected while a
    draft is open, the placeholder note is still the active note outside
    draft mode, and Save sends an update, Delete a delete, for the id
    [new].  The create request itself never carries an id. *)
Theorem C9_placeholder_id_sent :
  let s := run [Select "1"; Settle 0 Failed] drafting in
  selection drafting = Drafting /\
  activeNoteVal s = Some placeholder /\ isNewNote s = false /\
  sent (step Save s) = sent s ++ [CallUpdateNote "new" "Hi" ""] /\
  sent (step Delete s) = sent s ++ [CallDeleteNote "new"] /\
  request default_API_URL (CallUpdateNote "new" "Hi" "")
  = mkFetch "http://localhost:8000/api/notes/new" PUT
            [("Content-Type", "application/json")]
            (Some [("title", "Hi"); ("content", "")]) None /\
  url (request default_API_URL (CallDeleteNote "new"))
  = "http://localhost:8000/api/notes/new" /\
  (forall base t c,
      url (createNote base t c) = (base ++ "/notes")%string /\
      body (createNote base t c) = Some [("title", t); ("content", c)]).
Proof.
  cbv zeta. repeat split; reflexivity.
Qed.

(** ** The selection invariant *)

Lemma render_draftIsPlaceholder (s : State) :
  draftIsPlaceholder s -> draftIsPlaceholder (render s).
Proof.
  unfold draftIsPlaceholder, activeNoteVal.
  destruct (render_frame s) as (_ & _ & Ha & Hn & _).
  rewrite Ha, Hn. auto.
Qed.

Lemma activeEffect_draftIsPlaceholder (s : State) :
  draftIsPlaceholder (activeEffect s).
Proof.
  unfold draftIsPlaceholder, activeEffect, activeNoteVal.
  destruct (isNewNote s) eqn:Hn; rewrite andb_false_r || rewrite andb_true_r.
  - simpl. auto.
  - destruct (truthy (activeId s)); simpl.
    + destruct (activeId s); simpl; intros H; congruence.
    + intros H; congruence.
Qed.

Lemma commit_draftIsPlaceholder (p s : State) :
  draftIsPlaceholder s -> draftIsPlaceholder (commit p s).
Proof.
  intros H. unfold commit. apply render_draftIsPlaceholder.
  destruct (depsChanged p (render s)).
  - apply activeEffect_draftIsPlaceholder.
  - apply render_draftIsPlaceholder. exact H.
Qed.

Lemma step_draftIsPlaceholder (ev : Event) (s : State) :
  draftIsPlaceholder s -> lateFetch ev s = false ->
  draftIsPlaceholder (step ev s).
Proof.
  intros H Hl. destruct ev as [i| |f v| | | |k r]; simpl.
  - destruct (listed i (notes s)); auto.
    apply commit_draftIsPlaceholder. intros Hn. discriminate Hn.
  - apply commit_draftIsPlaceholder. intros _. reflexivity.
  - destruct (editor s); auto. destruct (loading s); auto.
  - destruct (editor s) as [e|]; auto.
    destruct (loading s || bothEmpty e); auto.
    apply commit_draftIsPlaceholder. unfold handleSave.
    destruct (isNewNote s) eqn:Hn.
    + intros _. apply H. exact Hn.
    + destruct (activeNote s) as [[r n]|]; intros Hc; simpl in Hc;
        congruence.
  - destruct (editor s); auto.
    destruct (isNewNote s || loading s); auto.
    apply commit_draftIsPlaceholder. unfold handleDelete.
    destruct (activeNote s) as [[r n]|] eqn:Ha; auto.
    destruct (isNewNote s) eqn:Hn; auto.
  - destruct (truthy (error s)); auto.
    apply commit_draftIsPlaceholder. exact H.
  - simpl in Hl.
    destruct (nth_error (inflight s) k) as [[c a]|]; auto.
    destruct (accepts c r); auto.
    apply commit_draftIsPlaceholder.
    destruct a; simpl.
    + destruct r; exact H.
    + destruct r; exact H.
    + destruct r; try exact H.
      intros Hn. simpl in Hn. congruence.
    + unfold handleSave_resume. destruct (succeeded r).
      * intros Hn. discriminate Hn.
      * exact H.
    + unfold handleDelete_resume. destruct (succeeded r).
      * intros Hn. discriminate Hn.
      * exact H.
Qed.

Lemma run_draftIsPlaceholder (tr : list Event) (s : State) :
  draftIsPlaceholder s -> noLateFetch tr s = true ->
  draftIsPlaceholder (run tr s).
Proof.
  revert s. induction tr as [|ev tr IH]; intros s H Hl; simpl in *; auto.
  apply andb_true_iff in Hl. destruct Hl as [Hl1 Hl2].
  apply negb_true_iff in Hl1.
  apply IH; auto using step_draftIsPlaceholder.
Qed.

(** The derived selection is the only state the triple can encode. *)
Lemma stateIs_selection (sel : Selection) (s : State) :
  stateIs sel s -> sel = selection s.
Proof.
  unfold selection, stateIs, activeNoteVal.
  destruct sel as [| |i].
  - intros [Hn Ha]. rewrite Hn.
    destruct (activeNote s) as [[r n]|]; simpl in Ha; congruence.
  - intros [Hn _]. rewrite Hn. reflexivity.
  - intros [Hn [n [Ha Hi]]]. rewrite Hn.
    destruct (activeNote s) as [[r m]|]; simpl in Ha; congruence.
Qed.

(** C1, as the code has it: along every run of user events and settled
    requests in which no note fetch resolves while a draft is open, the
    triple encodes exactly one selection state, the derived one; in
    particular draft mode means the placeholder is the active note and
    the sidebar selects nothing. *)
Theorem C1_exactly_one_selection (tr : list Event) :
  noLateFetch tr mount = true ->
  let s := run tr mount in
  stateIs (selection s) s /\
  (forall sel, stateIs sel s -> sel = selection s) /\
  (isNewNote s = true ->
   activeNoteVal s = Some placeholder /\ selectedId s = None).
Proof.
  intros Hl s.
  assert (H : draftIsPlaceholder s).
  { apply run_draftIsPlaceholder; auto. intros Hn. discriminate Hn. }
  split; [|split].
  - unfold draftIsPlaceholder in H.
    unfold selection, stateIs, selectedId, activeNoteVal in *.
    destruct (isNewNote s) eqn:Hn.
    + split; [reflexivity|]. split; [apply H; reflexivity | reflexivity].
    + destruct (activeNote s) as [[r n]|]; simpl.
      * split; [reflexivity|]. exists n. split; reflexivity.
      * split; reflexivity.
  - intros sel. apply stateIs_selection.
  - intros Hn. split; [apply H; exact Hn|].
    unfold selectedId. rewrite Hn. reflexivity.
Qed.

Lemma C1_witness :
  let s := run [Settle 0 (Notes [note1]); Select "1";
                Settle 0 (OneNote note1); New; Edit Title "Hi"] mount in
  stateIs (selection s) s /\
  (isNewNote s = true ->
   activeNoteVal s = Some placeholder /\ selectedId s = None).
Proof.
  pose proof (C1_exactly_one_selection
                [Settle 0 (Notes [note1]); Select "1";
                 Settle 0 (OneNote note1); New; Edit Title "Hi"]
                eq_refl) as H.
  cbv zeta in H. destruct H as (H1 & _ & H2).
  split; [exact H1 | exact H2].
Defined.

(** C1, as stated, fails: a note fetch started by a Select resolves
    after New, and the page is in draft mode with a stored note, not the
    placeholder, as its active note; the triple encodes no state. *)
Lemma C1_late_fetch_breaks_draft :
  let s := run [Select "1"; New; Settle 0 (OneNote note1)] loaded in
  isNewNote s = true /\ activeId s = Some "new" /\
  activeNoteVal s = Some note1 /\
  activeNoteVal s <> Some placeholder /\
  ~ (exists sel, stateIs sel s).
Proof.
  cbv zeta. split; [reflexivity|]. split; [reflexivity|].
  split; [reflexivity|]. split.
  - vm_compute. discriminate.
  - intros [sel H]. destruct sel; vm_compute in H.
    + destruct H as [H _]. discriminate H.
    + destruct H as (_ & H & _). discriminate H.
    + destruct H as [H _]. discriminate H.
Qed.

(** ** List requests *)

Lemma listRequests_app (l l' : list Call) :
  listRequests (l ++ l') = listRequests l + listRequests l'.
Proof. unfold listRequests. rewrite filter_app, length_app. reflexivity. Qed.

(** The effect on [activeId, isNewNote] fetches one note at most. *)
Lemma activeEffect_requests (s : State) :
  notes (activeEffect s) = notes s /\
  ((sent (activeEffect s) = sent s /\
    inflight (activeEffect s) = inflight s) \/
   exists i, sent (activeEffect s) = sent s ++ [CallFetchNote i] /\
             inflight (activeEffect s)
             = inflight s ++ [(CallFetchNote i, ActiveEffect)]).
Proof.
  unfold activeEffect.
  destruct (truthy (activeId s) && negb (isNewNote s)).
  - destruct (activeId s) as [i|]; simpl; auto.
    split; auto. right. exists i. auto.
  - destruct (isNewNote s); simpl; auto.
Qed.

Lemma commit_requests (p s : State) :
  notes (commit p s) = notes s /\
  ((sent (commit p s) = sent s /\ inflight (commit p s) = inflight s) \/
   exists i, sent (commit p s) = sent s ++ [CallFetchNote i] /\
             inflight (commit p s)
             = inflight s ++ [(CallFetchNote i, ActiveEffect)]).
Proof.
  unfold commit.
  destruct (render_frame s) as (Hn & _ & _ & _ & _ & _ & Hf & Hs & _).
  destruct (depsChanged p (render s)).
  - destruct (render_frame (activeEffect (render s)))
      as (Hn' & _ & _ & _ & _ & _ & Hf' & Hs' & _).
    destruct (activeEffect_requests (render s)) as (Hn2 & H).
    rewrite Hn', Hf', Hs', Hn2, Hn.
    rewrite Hs, Hf in H. auto.
  - destruct (render_frame (render s))
      as (Hn' & _ & _ & _ & _ & _ & Hf' & Hs' & _).
    rewrite Hn', Hf', Hs', Hn, Hf, Hs. auto.
Qed.

Lemma commit_listRequests (p s : State) :
  listRequests (sent (commit p s)) = listRequests (sent s) /\
  notes (commit p s) = notes s.
Proof.
  destruct (commit_requests p s) as (Hn & [[Hs _]|[i [Hs _]]]);
    rewrite Hs, ?listRequests_app; simpl; auto.
Qed.

Lemma forallb_removeAt {A : Type} (f : A -> bool) (k : nat) (l : list A) :
  forallb f l = true -> forallb f (removeAt k l) = true.
Proof.
  unfold removeAt. revert k.
  induction l as [|x l IH]; intros k H.
  - destruct k; reflexivity.
  - simpl in H. apply andb_true_iff in H. destruct H as [Hx Hl].
    destruct k as [|k]; simpl; auto.
    rewrite Hx. simpl. apply IH. exact Hl.
Qed.

Lemma wellTagged_nth (s : State) (k : nat) (c : Call) (a : Awaiter) :
  wellTagged s -> nth_error (inflight s) k = Some (c, a) ->
  tagOk (c, a) = true.
Proof.
  unfold wellTagged. intros H Hk. rewrite forallb_forall in H.
  apply H. eapply nth_error_In; eauto.
Qed.

Lemma commit_wellTagged (p s : State) :
  wellTagged s -> wellTagged (commit p s).
Proof.
  unfold wellTagged. intros H.
  destruct (commit_requests p s) as (_ & [[_ Hf]|[i [_ Hf]]]); rewrite Hf;
    auto.
  rewrite forallb_app, H. reflexivity.
Qed.

Lemma step_wellTagged (ev : Event) (s : State) :
  wellTagged s -> wellTagged (step ev s).
Proof.
  intros H. destruct ev as [i| |f v| | | |k r]; simpl.
  - destruct (listed i (notes s)); auto. apply commit_wellTagged. exact H.
  - apply commit_wellTagged. exact H.
  - destruct (editor s); auto. destruct (loading s); auto.
  - destruct (editor s) as [e|]; auto.
    destruct (loading s || bothEmpty e); auto.
    apply commit_wellTagged. unfold handleSave, wellTagged in *.
    destruct (isNewNote s); [|destruct (activeNote s) as [[r n]|]]; simpl;
      rewrite forallb_app, H; reflexivity.
  - destruct (editor s); auto.
    destruct (isNewNote s || loading s); auto.
    apply commit_wellTagged. unfold handleDelete, wellTagged in *.
    destruct (activeNote s) as [[r n]|]; auto.
    destruct (isNewNote s); auto.
    simpl. rewrite forallb_app, H. reflexivity.
  - destruct (truthy (error s)); auto. apply commit_wellTagged. exact H.
  - destruct (nth_error (inflight s) k) as [[c a]|]; auto.
    destruct (accepts c r); auto.
    apply commit_wellTagged. unfold wellTagged in *.
    pose proof (forallb_removeAt tagOk k (inflight s) H) as Hrm.
    destruct a; simpl;
      unfold handleSave_resume, handleDelete_resume;
      destruct r; simpl; rewrite ?forallb_app, ?Hrm; reflexivity.
Qed.

Lemma run_wellTagged (tr : list Event) (s : State) :
  wellTagged s -> wellTagged (run tr s).
Proof.
  revert s. induction tr as [|ev tr IH]; intros s H; simpl; auto.
  apply IH. apply step_wellTagged. exact H.
Qed.

(** One step from a rendered, well-tagged state: a list request goes out
    exactly when the step is the success of a create, update or delete,
    and the cache changes exactly when a list arrives, to that list. *)
Lemma step_list_refresh (ev : Event) (s : State) :
  rendered s -> wellTagged s ->
  listRequests (sent (step ev s))
  = listRequests (sent s) + (if mutationSucceeds ev s then 1 else 0) /\
  notes (step ev s)
  = match listReply ev s with Some data => data | None => notes s end.
Proof.
  intros Hr Hw.
  destruct ev as [i| |f v| | | |k r]; simpl;
    rewrite ?Nat.add_0_r.
  - destruct (listed i (notes s)); auto.
    destruct (commit_listRequests s (handleSelectNote i s)) as [H1 H2].
    rewrite H1, H2. auto.
  - destruct (commit_listRequests s (handleAddNew s)) as [H1 H2].
    rewrite H1, H2. auto.
  - destruct (editor s); auto. destruct (loading s); auto.
  - destruct (editor s) as [e|] eqn:He; auto.
    destruct (loading s) eqn:Hl; simpl; auto.
    destruct (bothEmpty e) eqn:Hb; auto.
    pose proof (step_save_issues s e Hr He Hl Hb) as H.
    simpl in H. rewrite He, Hl, Hb in H. simpl in H. rewrite H. simpl.
    rewrite listRequests_app.
    pose proof (rendered_editor_visible s Hr) as Hv.
    rewrite He in Hv. simpl in Hv. unfold saveCall.
    destruct (isNewNote s); simpl; auto.
    destruct (activeNote s) as [[r n]|]; simpl in Hv; try discriminate.
    simpl. auto.
  - destruct (editor s); auto.
    destruct (isNewNote s || loading s) eqn:Hg; auto.
    apply orb_false_iff in Hg. destruct Hg as [Hn Hl].
    destruct (commit_listRequests s (handleDelete s)) as [H1 H2].
    rewrite H1, H2. unfold handleDelete.
    destruct (activeNote s) as [[r n]|]; auto. rewrite Hn. simpl.
    rewrite listRequests_app. simpl. auto.
  - destruct (truthy (error s)); auto.
    destruct (commit_listRequests s (setError None s)) as [H1 H2].
    rewrite H1, H2. auto.
  - destruct (nth_error (inflight s) k) as [[c a]|] eqn:Hk.
    + pose proof (wellTagged_nth s k c a Hw Hk) as Ht.
      destruct (accepts c r) eqn:Hacc.
      * match goal with
        | |- context [commit ?p ?q] =>
            destruct (commit_listRequests p q) as [H1 H2]
        end.
        rewrite H1, H2.
        destruct c, a; simpl in Ht; try discriminate Ht;
          destruct r; simpl in Hacc; try discriminate Hacc;
            simpl; rewrite ?listRequests_app; simpl; auto.
      * rewrite andb_false_r. simpl. rewrite Nat.add_0_r.
        destruct r; auto.
        destruct c; simpl in Hacc; try discriminate Hacc; auto.
    + rewrite Nat.add_0_r. destruct r; auto.
Qed.

(** C8: the page issues one list request when it mounts; after that, at
    every step of every run, a list request is issued exactly when the
    step is the success of a create, update or delete request (never on
    an edit, never on a rejected request), and the list cache changes
    only when a list request resolves, to the whole list it returned. *)
Theorem C8_list_refresh_points (tr : list Event) (ev : Event) :
  let s := run tr mount in
  sent mount = [CallFetchNotes] /\
  listRequests (sent (step ev s))
  = listRequests (sent s) + (if mutationSucceeds ev s then 1 else 0) /\
  notes (step ev s)
  = match listReply ev s with Some data => data | None => notes s end.
Proof.
  intros s. split; [reflexivity|].
  apply step_list_refresh.
  - apply run_rendered. apply mount_rendered.
  - apply run_wellTagged. reflexivity.
Qed.

(** ** Object identity along a run *)

Lemma render_nextRef_activeNote (s : State) :
  activeNote (render s) = activeNote s /\ nextRef (render s) = nextRef s.
Proof.
  destruct (render_frame s) as (_ & _ & Ha & _ & _ & _ & _ & _ & Hn). auto.
Qed.

Lemma render_refsBelow (s : State) : refsBelow s -> refsBelow (render s).
Proof.
  unfold refsBelow. destruct (render_nextRef_activeNote s) as [Ha Hn].
  rewrite Ha, Hn. auto.
Qed.

Lemma setActiveNote_refsBelow (v : option Note) (s : State) :
  refsBelow (setActiveNote v s).
Proof. unfold refsBelow. destruct v; simpl; auto. Qed.

Lemma activeEffect_refsBelow (s : State) :
  refsBelow s -> refsBelow (activeEffect s).
Proof.
  intros H. unfold activeEffect.
  destruct (truthy (activeId s) && negb (isNewNote s)).
  - destruct (activeId s); auto.
  - destruct (isNewNote s); apply setActiveNote_refsBelow.
Qed.

Lemma commit_refsBelow (p s : State) : refsBelow s -> refsBelow (commit p s).
Proof.
  intros H. unfold commit. apply render_refsBelow.
  destruct (depsChanged p (render s)).
  - apply activeEffect_refsBelow, render_refsBelow, H.
  - apply render_refsBelow, H.
Qed.

Lemma step_refsBelow (ev : Event) (s : State) :
  refsBelow s -> refsBelow (step ev s).
Proof.
  intros H. destruct ev as [i| |f v| | | |k r]; simpl.
  - destruct (listed i (notes s)); auto. apply commit_refsBelow. exact H.
  - apply commit_refsBelow. unfold handleAddNew.
    apply setActiveNote_refsBelow.
  - destruct (editor s); auto. destruct (loading s); auto.
  - destruct (editor s) as [e|]; auto.
    destruct (loading s || bothEmpty e); auto.
    apply commit_refsBelow. unfold handleSave.
    destruct (isNewNote s); [exact H|].
    destruct (activeNote s) as [[r n]|] eqn:Ha.
    + unfold refsBelow. simpl. rewrite Ha.
      unfold refsBelow in H. rewrite Ha in H. exact H.
    + exact I.
  - destruct (editor s); auto.
    destruct (isNewNote s || loading s); auto.
    apply commit_refsBelow. unfold handleDelete.
    destruct (activeNote s) as [[r n]|] eqn:Ha; auto.
    destruct (isNewNote s); auto.
  - destruct (truthy (error s)); auto. apply commit_refsBelow. exact H.
  - destruct (nth_error (inflight s) k) as [[c a]|]; auto.
    destruct (accepts c r); auto.
    apply commit_refsBelow.
    destruct a; simpl; unfold handleSave_resume, handleDelete_resume;
      destruct r; simpl; try exact H; try exact I;
        unfold refsBelow; simpl; auto.
Qed.

Lemma run_refsBelow (tr : list Event) (s : State) :
  refsBelow s -> refsBelow (run tr s).
Proof.
  revert s. induction tr as [|ev tr IH]; intros s H; simpl; auto.
  apply IH. apply step_refsBelow. exact H.
Qed.

(** A render that follows [setActiveNote] of a new object shows that
    object's fields in the editor, whatever was typed. *)
Lemma render_fresh_note (s q : State) (n : Note) :
  rendered s -> refsBelow s ->
  editor q = editor s -> activeNote q = Some (nextRef s, n) ->
  render q
  = setEditor (Some (mkEditor (Some (nextRef s)) (title n) (content n))) q.
Proof.
  intros Hr Hb He Ha. unfold render. rewrite Ha. simpl.
  rewrite orb_true_r. rewrite He.
  unfold syncEditor, activeNoteRef, activeNoteVal. rewrite Ha. simpl.
  destruct (editor s) as [e|] eqn:Hed; auto.
  rewrite (rendered_noteProp s e Hr Hed).
  unfold activeNoteRef, refsBelow in *.
  destruct (activeNote s) as [[r m]|]; simpl; auto.
  replace (Nat.eqb r (nextRef s)) with false; auto.
  symmetry. apply Nat.eqb_neq. lia.
Qed.

(** A render of a state whose editor already shows the active object
    changes nothing. *)
Lemma render_synced (q : State) (e : Editor) :
  editor q = Some e -> noteProp e = activeNoteRef q ->
  isNewNote q || isSome (activeNote q) = true ->
  render q = q.
Proof.
  intros He Hp Hv. unfold render. rewrite Hv, He, Hp, optRefEqb_refl.
  reflexivity.
Qed.

(** ** New, Select and the note fetch *)

Lemma step_new_drafts (s : State) :
  rendered s -> refsBelow s ->
  let s' := step New s in
  isNewNote s' = true /\ activeId s' = Some "new" /\
  activeNoteVal s' = Some placeholder /\
  (exists r, editor s' = Some (mkEditor (Some r) "" "")) /\
  sent s' = sent s /\ inflight s' = inflight s /\
  notes s' = notes s /\ error s' = error s /\ loading s' = loading s.
Proof.
  intros Hr Hb. simpl. unfold commit.
  set (q := handleAddNew s).
  assert (Hq : render q
               = setEditor (Some (mkEditor (Some (nextRef s)) "" "")) q)
    by (apply (render_fresh_note s q placeholder); auto).
  destruct (depsChanged s (render q)).
  - rewrite Hq.
    set (q1 := setEditor (Some (mkEditor (Some (nextRef s)) "" "")) q) in *.
    assert (Hr1 : rendered q1)
      by (unfold rendered; rewrite <- Hq; apply render_idem).
    assert (Hb1 : refsBelow q1) by (unfold refsBelow; simpl; lia).
    replace (activeEffect q1) with (setActiveNote (Some placeholder) q1)
      by reflexivity.
    rewrite (render_fresh_note q1 (setActiveNote (Some placeholder) q1)
               placeholder Hr1 Hb1 eq_refl eq_refl).
    simpl. repeat split; eauto.
  - rewrite render_idem, Hq. simpl. repeat split; eauto.
Qed.

(** X1: from any state the page can reach, New opens an empty draft: the
    page is Drafting with the placeholder as active note, both editor
    fields are empty whatever was typed or shown before, and nothing is
    sent; the list cache, the error slot and the loading flag stay. *)
Theorem X1_new_opens_empty_draft (tr : list Event) :
  let s := run tr mount in
  let s' := step New s in
  selection s' = Drafting /\ activeId s' = Some "new" /\
  activeNoteVal s' = Some placeholder /\
  (exists r, editor s' = Some (mkEditor (Some r) "" "")) /\
  sent s' = sent s /\ inflight s' = inflight s /\
  notes s' = notes s /\ error s' = error s /\ loading s' = loading s.
Proof.
  intros s s'.
  assert (Hr : rendered s) by (apply run_rendered, mount_rendered).
  assert (Hb : refsBelow s) by (apply run_refsBelow; exact I).
  destruct (step_new_drafts s Hr Hb) as (Hn & H).
  fold s' in Hn, H. split; [|exact H].
  unfold selection. rewrite Hn. reflexivity.
Qed.

(** A note fetch that resolves makes its note the active note and the
    editor show it, whatever is selected by then. *)
Lemma settle_fetch_ok (s : State) (k : nat) (c : Call) (data : Note) :
  rendered s -> refsBelow s ->
  nth_error (inflight s) k = Some (c, ActiveEffect) ->
  accepts c (OneNote data) = true ->
  step (Settle k (OneNote data)) s
  = mkState (notes s) (activeId s) (Some (nextRef s, data)) (isNewNote s)
            false (error s)
            (Some (mkEditor (Some (nextRef s)) (title data) (content data)))
            (removeAt k (inflight s)) (sent s) (S (nextRef s)).
Proof.
  intros Hr Hb Hk Hacc. simpl. rewrite Hk, Hacc. simpl. unfold commit.
  match goal with
  | |- context [render ?q0] =>
      set (q := q0);
      assert (Hq : render q
                   = setEditor (Some (mkEditor (Some (nextRef s))
                                               (title data) (content data))) q)
        by (apply (render_fresh_note s q data); auto)
  end.
  rewrite Hq. rewrite depsChanged_same by reflexivity.
  rewrite <- Hq, render_idem, Hq. reflexivity.
Qed.

(** X2: a Select of a listed note that is not the one [activeId] already
    names (or any listed note, while drafting) fetches it; when the fetch
    resolves the page is Viewing the fetched note and the editor shows
    its title and content, so whatever was typed before is gone; the
    loading flag is cleared, the error slot and the list cache stay. *)
Theorem X2_select_loads_note (tr : list Event) (i : string) (data : Note) :
  let s := run tr mount in
  listed i (notes s) = true -> i <> "" ->
  activeId s <> Some i \/ isNewNote s = true ->
  let k := length (inflight s) in
  let s1 := step (Select i) s in
  let s2 := step (Settle k (OneNote data)) s1 in
  sent s1 = sent s ++ [CallFetchNote i] /\
  loading s1 = true /\ activeId s1 = Some i /\
  selection s2 = Viewing (id data) /\
  activeNoteVal s2 = Some data /\
  (exists r, editor s2
             = Some (mkEditor (Some r) (title data) (content data))) /\
  loading s2 = false /\ error s2 = error s /\ notes s2 = notes s /\
  sent s2 = sent s1 /\ inflight s2 = inflight s.
Proof.
  intros s Hl Hi Hd k s1 s2.
  assert (Hr : rendered s) by (apply run_rendered, mount_rendered).
  assert (Hb : refsBelow s) by (apply run_refsBelow; exact I).
  assert (Hr1 : rendered s1) by (apply step_rendered; exact Hr).
  assert (Hb1 : refsBelow s1) by (apply step_refsBelow; exact Hb).
  assert (H1 : sent s1 = sent s ++ [CallFetchNote i] /\
               inflight s1 = inflight s ++ [(CallFetchNote i, ActiveEffect)] /\
               loading s1 = true /\ activeId s1 = Some i /\
               isNewNote s1 = false /\ error s1 = error s /\
               notes s1 = notes s).
  { unfold s1. simpl. rewrite Hl. unfold commit.
    destruct (render_frame (handleSelectNote i s))
      as (Hn & Hai & _ & Hnn & Hld & Her & Hfl & Hse & _).
    set (q := render (handleSelectNote i s)) in *.
    assert (Hdc : depsChanged s q = true).
    { unfold depsChanged. rewrite Hai, Hnn. simpl.
      destruct Hd as [Hd|Hd].
      - destruct (optStringEqb (activeId s) (Some i)) eqn:Heq; auto.
        apply optStringEqb_eq in Heq. contradiction.
      - rewrite Hd. simpl. rewrite andb_false_r. reflexivity. }
    rewrite Hdc.
    assert (He : activeEffect q
                 = q |> setLoading true
                     |> issue (CallFetchNote i) ActiveEffect).
    { unfold activeEffect. rewrite Hai, Hnn. simpl.
      destruct (i =? "") eqn:Hie; [apply String.eqb_eq in Hie; contradiction|].
      reflexivity. }
    rewrite He.
    match goal with
    | |- context [render ?x] =>
        destruct (render_frame x)
          as (Hn' & Hai' & _ & Hnn' & Hld' & Her' & Hfl' & Hse' & _)
    end.
    rewrite Hn', Hai', Hnn', Hld', Her', Hfl', Hse'. simpl.
    rewrite Hn, Hai, Hnn, Her, Hfl, Hse. simpl. repeat split; reflexivity. }
  destruct H1 as (Hse1 & Hfl1 & Hld1 & Hai1 & Hnn1 & Her1 & Hn1).
  assert (Hk : nth_error (inflight s1) k
               = Some (CallFetchNote i, ActiveEffect))
    by (rewrite Hfl1; apply nth_error_snoc).
  pose proof (settle_fetch_ok s1 k _ data Hr1 Hb1 Hk eq_refl) as H2.
  fold s2 in H2.
  split; [exact Hse1|]. split; [exact Hld1|]. split; [exact Hai1|].
  rewrite H2. unfold selection, activeNoteVal. simpl.
  rewrite Hnn1, Her1, Hn1, Hfl1. unfold k. rewrite removeAt_snoc.
  repeat split; eauto.
Qed.

Lemma X2_witness :
  let s := run [Settle 0 (Notes [note1]); New; Edit Title "Hi"] mount in
  let s1 := step (Select "1") s in
  let s2 := step (Settle (length (inflight s)) (OneNote note1)) s1 in
  selection s2 = Viewing "1" /\
  exists r, editor s2 = Some (mkEditor (Some r) "Groceries" "Milk").
Proof.
  assert (Hi : "1" <> "") by discriminate.
  pose proof (X2_select_loads_note
                [Settle 0 (Notes [note1]); New; Edit Title "Hi"] "1" note1
                eq_refl Hi (or_intror eq_refl)) as H.
  cbv zeta in H. destruct H as (_ & _ & _ & H1 & _ & H2 & _).
  cbv zeta. split; [exact H1 | exact H2].
Defined.

(** X3: a Select of the note [activeId] already names, outside draft
    mode, changes nothing and sends nothing: the note is not fetched
    again, also when its first fetch was rejected. *)
Theorem X3_reselect_does_not_refetch (s : State) (i : string) :
  rendered s -> isNewNote s = false -> activeId s = Some i ->
  step (Select i) s = s.
Proof.
  intros Hr Hn Ha. simpl. destruct (listed i (notes s)); auto.
  assert (He : handleSelectNote i s = s).
  { destruct s. simpl in *. subst. reflexivity. }
  rewrite He. apply commit_stable; auto.
Qed.

Lemma X3_witness :
  let s := run [Select "1"; Settle 0 Failed] loaded in
  error s = Some "Could not fetch note" /\ step (Select "1") s = s.
Proof.
  split; [reflexivity|].
  apply (X3_reselect_does_not_refetch
           (run [Select "1"; Settle 0 Failed] loaded) "1");
    reflexivity.
Defined.

(** X4: a note fetch that resolves while a draft is open replaces what
    was typed in the draft by the fetched note's title and content and
    leaves the page in draft mode, so a Save then creates a new note with
    the fetched note's fields. *)
Theorem X4_late_fetch_overwrites_draft (tr : list Event) (k : nat)
        (c : Call) (data : Note) :
  let s := run tr mount in
  isNewNote s = true ->
  nth_error (inflight s) k = Some (c, ActiveEffect) ->
  accepts c (OneNote data) = true ->
  let s' := step (Settle k (OneNote data)) s in
  selection s' = Drafting /\ activeNoteVal s' = Some data /\
  (exists r, editor s'
             = Some (mkEditor (Some r) (title data) (content data))) /\
  (bothEmpty (mkEditor None (title data) (content data)) = false ->
   sent (step Save s')
   = sent s ++ [CallCreateNote (title data) (content data)]).
Proof.
  intros s Hn Hk Hacc s'.
  assert (Hr : rendered s) by (apply run_rendered, mount_rendered).
  assert (Hb : refsBelow s) by (apply run_refsBelow; exact I).
  assert (Hr' : rendered s') by (apply step_rendered; exact Hr).
  pose proof (settle_fetch_ok s k c data Hr Hb Hk Hacc) as H. fold s' in H.
  split; [rewrite H; unfold selection; simpl; rewrite Hn; reflexivity|].
  split; [rewrite H; reflexivity|].
  split; [rewrite H; simpl; eauto|].
  intros Hbe.
  rewrite (step_save_issues s'
             (mkEditor (Some (nextRef s)) (title data) (content data)) Hr');
    try (rewrite H; reflexivity); try exact Hbe.
  simpl. unfold saveCall. rewrite H. simpl. rewrite Hn. reflexivity.
Qed.

Lemma X4_witness :
  let s := run [Settle 0 (Notes [note1]); Select "1"; New] mount in
  let s' := step (Settle 0 (OneNote note1)) s in
  selection s' = Drafting /\
  sent (step Save s') = sent s ++ [CallCreateNote "Groceries" "Milk"].
Proof.
  pose proof (X4_late_fetch_overwrites_draft
                [Settle 0 (Notes [note1]); Select "1"; New] 0
                (CallFetchNote "1") note1 eq_refl eq_refl eq_refl) as H.
  cbv zeta in H. destruct H as (H1 & _ & _ & H2).
  cbv zeta. split; [exact H1 | exact (H2 eq_refl)].
Defined.

(** ** Delete, retry and list failures *)

(** X5: a Delete in Viewing(id) whose request succeeds leaves the page
    Idle with no editor and issues one list request; until that list
    arrives the cache still holds what it held, the deleted note
    included, and when it arrives the cache is the list returned. *)
Theorem X5_successful_delete (s : State) (i : string) (data : list Note) :
  rendered s -> loading s = false -> selection s = Viewing i ->
  let k := length (inflight s) in
  let s1 := step Delete s in
  let s2 := step (Settle k NoContent) s1 in
  let s3 := step (Settle k (Notes data)) s2 in
  sent s1 = sent s ++ [CallDeleteNote i] /\
  selection s2 = Idle /\ activeId s2 = None /\ editor s2 = None /\
  loading s2 = false /\
  sent s2 = sent s1 ++ [CallFetchNotes] /\
  notes s2 = notes s /\
  notes s3 = data /\ selection s3 = Idle /\ sent s3 = sent s2 /\
  inflight s3 = inflight s.
Proof.
  intros Hr Hl Hsel k s1 s2 s3.
  unfold selection in Hsel.
  destruct (isNewNote s) eqn:Hn; [discriminate Hsel|].
  destruct (activeNote s) as [[r n]|] eqn:Ha; [|discriminate Hsel].
  inversion Hsel as [Hi].
  pose proof (step_delete_issues s r n Hr Ha Hn Hl) as H1. fold s1 in H1.
  assert (Hk : nth_error (inflight s1) k
               = Some (CallDeleteNote (id n), HandleDelete))
    by (rewrite H1; simpl; apply nth_error_snoc).
  pose proof (settle_mutation_ok s1 k _ HandleDelete NoContent
                (or_intror eq_refl) Hk eq_refl eq_refl) as H2.
  cbv zeta in H2. fold s2 in H2.
  destruct H2 as (Hn2 & Hi2 & Ha2 & He2 & Hno2 & Hl2 & _ & Hfl2 & Hse2).
  assert (Hfl : inflight s2 = inflight s ++ [(CallFetchNotes, Refresh)]).
  { rewrite Hfl2, H1. simpl. unfold k. rewrite removeAt_snoc. reflexivity. }
  assert (Hk2 : nth_error (inflight s2) k = Some (CallFetchNotes, Refresh))
    by (rewrite Hfl; apply nth_error_snoc).
  assert (Hr2 : rendered s2).
  { unfold s2. apply step_rendered. unfold s1. apply step_rendered. exact Hr. }
  pose proof (settle_notes s2 k Refresh data Hr2 (or_intror eq_refl) Hk2) as H3.
  fold s3 in H3.
  split; [rewrite H1; reflexivity|].
  split; [unfold selection; rewrite Hn2, Ha2; reflexivity|].
  split; [exact Hi2|]. split; [exact He2|]. split; [exact Hl2|].
  split; [exact Hse2|].
  split; [rewrite Hno2, H1; reflexivity|].
  rewrite H3. unfold selection. simpl. rewrite Hn2, Ha2, Hfl.
  unfold k. rewrite removeAt_snoc. repeat split; reflexivity.
Qed.

Lemma X5_witness :
  let s := viewing1 in
  let s1 := step Delete s in
  let s2 := step (Settle (length (inflight s)) NoContent) s1 in
  let s3 := step (Settle (length (inflight s)) (Notes [])) s2 in
  selection s2 = Idle /\ notes s2 = [note1] /\ notes s3 = [].
Proof.
  pose proof (X5_successful_delete viewing1 "1" [] eq_refl eq_refl eq_refl)
    as H.
  cbv zeta in H.
  destruct H as (_ & H1 & _ & _ & _ & _ & H2 & H3 & _).
  cbv zeta. split; [exact H1 | split; [exact H2 | exact H3]].
Defined.

(** X6: after a Save whose request was rejected, a second click on Save
    sends the same request again: the draft and the selection it is
    built from survived the failure. *)
Theorem X6_save_can_be_retried (s : State) (e : Editor) :
  rendered s -> editor s = Some e ->
  loading s = false -> bothEmpty e = false ->
  let c := saveCall (localTitle e) (localContent e) s in
  let s2 := step (Settle (length (inflight s)) Failed) (step Save s) in
  isMutation c = true /\
  sent s2 = sent s ++ [c] /\
  sent (step Save s2) = sent s ++ [c; c] /\
  loading (step Save s2) = true.
Proof.
  intros Hr He Hl Hb c s2.
  pose proof (step_save_issues s e Hr He Hl Hb) as H1. fold c in H1.
  assert (Hk : nth_error (inflight (step Save s)) (length (inflight s))
               = Some (c, HandleSave))
    by (rewrite H1; simpl; apply nth_error_snoc).
  assert (Hr1 : rendered (step Save s)) by (apply step_rendered; exact Hr).
  pose proof (settle_failed _ _ _ _ Hr1 Hk) as H2. fold s2 in H2.
  assert (Hr2 : rendered s2) by (apply step_rendered; exact Hr1).
  assert (He2 : editor s2 = Some e) by (rewrite H2, H1; exact He).
  assert (Hl2 : loading s2 = false) by (rewrite H2; reflexivity).
  pose proof (step_save_issues s2 e Hr2 He2 Hl2 Hb) as H3.
  assert (Hc : saveCall (localTitle e) (localContent e) s2 = c).
  { unfold c, saveCall. rewrite H2, H1. reflexivity. }
  rewrite Hc in H3.
  assert (Hs2 : sent s2 = sent s ++ [c]) by (rewrite H2, H1; reflexivity).
  split.
  { pose proof (rendered_editor_visible s Hr) as Hv.
    rewrite He in Hv. simpl in Hv. unfold c, saveCall.
    destruct (isNewNote s); auto.
    destruct (activeNote s) as [[r n]|]; simpl in Hv; try discriminate; auto. }
  split; [exact Hs2|].
  rewrite H3. simpl. rewrite Hs2, <- app_assoc. split; reflexivity.
Qed.

Lemma X6_witness :
  let s := drafting in
  let s2 := step (Settle (length (inflight s)) Failed) (step Save s) in
  sent (step Save s2)
  = sent s ++ [CallCreateNote "Hi" ""; CallCreateNote "Hi" ""].
Proof.
  pose proof (X6_save_can_be_retried drafting (mkEditor (Some 1) "Hi" "")
                eq_refl eq_refl eq_refl eq_refl) as H.
  cbv zeta in H. destruct H as (_ & _ & H & _).
  cbv zeta. exact H.
Defined.

(** X7: when a list request is rejected, at first load or after a
    refresh, the error slot holds the load-failed message and the list
    cache, the selection and the editor are what they were: the stale
    list stays on screen and nothing is sent again.  Only the first
    load touches the loading flag. *)
Theorem X7_failed_list_keeps_cache (s : State) (k : nat) (c : Call)
        (a : Awaiter) :
  rendered s ->
  a = InitialLoad \/ a = Refresh ->
  nth_error (inflight s) k = Some (c, a) ->
  let s' := step (Settle k Failed) s in
  error s' = Some "Could not load notes" /\
  notes s' = notes s /\ selection s' = selection s /\
  activeId s' = activeId s /\ editor s' = editor s /\
  sent s' = sent s /\ inflight s' = removeAt k (inflight s) /\
  loading s' = match a with Refresh => loading s | _ => false end.
Proof.
  intros Hr Ha Hk s'. unfold s'.
  rewrite (settle_failed s k c a Hr Hk).
  destruct Ha; subst a; unfold selection; simpl; repeat split; reflexivity.
Qed.

Lemma X7_witness :
  let s' := step (Settle 0 Failed) mount in
  error s' = Some "Could not load notes" /\ notes s' = [] /\
  loading s' = false.
Proof.
  pose proof (X7_failed_list_keeps_cache mount 0 CallFetchNotes InitialLoad
                eq_refl (or_introl eq_refl) eq_refl) as H.
  cbv zeta in H. destruct H as (H1 & H2 & _ & _ & _ & _ & _ & H3).
  cbv zeta. split; [exact H1 | split; [exact H2 | exact H3]].
Defined.

(** ** The error slot, the loading flag and the requests of a run *)

Lemma activeEffect_error (s : State) : error (activeEffect s) = error s.
Proof.
  unfold activeEffect.
  destruct (truthy (activeId s) && negb (isNewNote s)).
  - destruct (activeId s); reflexivity.
  - destruct (isNewNote s); reflexivity.
Qed.

Lemma commit_error (p s : State) : error (commit p s) = error s.
Proof.
  unfold commit.
  destruct (render_frame s) as (_ & _ & _ & _ & _ & He & _).
  destruct (depsChanged p (render s)).
  - destruct (render_frame (activeEffect (render s)))
      as (_ & _ & _ & _ & _ & He' & _).
    rewrite He', activeEffect_error, He. reflexivity.
  - destruct (render_frame (render s)) as (_ & _ & _ & _ & _ & He' & _).
    rewrite He', He. reflexivity.
Qed.

(** X8: along every run the error slot changes only in two ways: a
    rejected request overwrites it with the message of the code that
    awaited the request, and Dismiss clears it.  No other event touches
    it; in particular a request that succeeds leaves an earlier error on
    screen. *)
Theorem X8_error_slot_policy (tr : list Event) (ev : Event) :
  let s := run tr mount in
  error (step ev s) = errorAfter ev s.
Proof.
  intros s.
  assert (Hw : wellTagged s) by (apply run_wellTagged; reflexivity).
  destruct ev as [i| |f v| | | |k r]; simpl.
  - destruct (listed i (notes s)); auto. rewrite commit_error; reflexivity.
  - rewrite commit_error; reflexivity.
  - destruct (editor s); auto. destruct (loading s); auto.
  - destruct (editor s) as [e|]; auto.
    destruct (loading s || bothEmpty e); auto.
    rewrite commit_error. unfold handleSave.
    destruct (isNewNote s); auto.
    destruct (activeNote s) as [[r n]|]; reflexivity.
  - destruct (editor s); auto.
    destruct (isNewNote s || loading s); auto.
    rewrite commit_error. unfold handleDelete.
    destruct (activeNote s) as [[r n]|]; auto.
    destruct (isNewNote s); reflexivity.
  - destruct (truthy (error s)); auto. rewrite commit_error; reflexivity.
  - destruct (nth_error (inflight s) k) as [[c a]|] eqn:Hk.
    + pose proof (wellTagged_nth s k c a Hw Hk) as Ht.
      destruct (accepts c r) eqn:Hacc.
      * rewrite commit_error.
        destruct c, a; simpl in Ht; try discriminate Ht;
          destruct r; simpl in Hacc; try discriminate Hacc; reflexivity.
      * destruct r; auto.
        destruct c; discriminate Hacc.
    + destruct r; reflexivity.
Qed.

Lemma existsb_removeAt {A : Type} (f : A -> bool) (k : nat) (l : list A)
      (x : A) :
  nth_error l k = Some x -> f x = false ->
  existsb f (removeAt k l) = existsb f l.
Proof.
  unfold removeAt. revert k.
  induction l as [|y l IH]; intros k Hk Hx.
  - destruct k; discriminate Hk.
  - destruct k as [|k]; simpl in *.
    + inversion Hk. subst. rewrite Hx. reflexivity.
    + rewrite (IH k Hk Hx). reflexivity.
Qed.

Lemma commit_busy (p s : State) : busy s -> busy (commit p s).
Proof.
  unfold busy, commit. intros H.
  destruct (render_frame s) as (_ & _ & _ & _ & Hl & _ & Hf & _).
  destruct (depsChanged p (render s)).
  - destruct (render_frame (activeEffect (render s)))
      as (_ & _ & _ & _ & Hl' & _ & Hf' & _).
    rewrite Hl', Hf'. unfold activeEffect.
    destruct (truthy (activeId (render s)) && negb (isNewNote (render s))).
    + destruct (activeId (render s)); simpl.
      * intros _. rewrite existsb_app. simpl. apply orb_true_r.
      * rewrite Hl, Hf. exact H.
    + destruct (isNewNote (render s)); simpl; rewrite Hl, Hf; exact H.
  - destruct (render_frame (render s)) as (_ & _ & _ & _ & Hl' & _ & Hf' & _).
    rewrite Hl', Hf', Hl, Hf. exact H.
Qed.

Lemma step_busy (ev : Event) (s : State) : busy s -> busy (step ev s).
Proof.
  intros H. destruct ev as [i| |f v| | | |k r]; simpl.
  - destruct (listed i (notes s)); auto. apply commit_busy. exact H.
  - apply commit_busy. exact H.
  - destruct (editor s); auto. destruct (loading s); auto.
  - destruct (editor s) as [e|]; auto.
    destruct (loading s || bothEmpty e); auto.
    apply commit_busy. unfold busy, handleSave.
    destruct (isNewNote s); [|destruct (activeNote s) as [[r n]|]]; simpl;
      intros Hl; try discriminate Hl;
        rewrite existsb_app; simpl; apply orb_true_r.
  - destruct (editor s); auto.
    destruct (isNewNote s || loading s); auto.
    apply commit_busy. unfold handleDelete.
    destruct (activeNote s) as [[r n]|]; auto.
    destruct (isNewNote s); auto.
    unfold busy. simpl. intros _. rewrite existsb_app. simpl.
    apply orb_true_r.
  - destruct (truthy (error s)); auto. apply commit_busy. exact H.
  - destruct (nth_error (inflight s) k) as [[c a]|] eqn:Hk; auto.
    destruct (accepts c r); auto.
    apply commit_busy. unfold busy in *.
    destruct a; simpl;
      unfold handleSave_resume, handleDelete_resume;
      destruct r; simpl; intros Hl; try discriminate Hl;
        rewrite (existsb_removeAt clearsLoading k (inflight s) _ Hk eq_refl);
        auto.
Qed.

(** X9: along every run, whenever the loading flag is set some request
    other than a refresh is still pending, so the controls it disables
    are released as soon as that request settles: the page is never
    left disabled with nothing outstanding. *)
Theorem X9_loading_has_pending_request (tr : list Event) :
  let s := run tr mount in
  loading s = true -> existsb clearsLoading (inflight s) = true.
Proof.
  intros s. change (busy s). unfold s. clear s.
  assert (H0 : busy mount) by (intros _; reflexivity).
  revert H0. generalize mount.
  induction tr as [|ev tr IH]; intros s0 H0; simpl; auto.
  apply IH. apply step_busy. exact H0.
Qed.

Lemma X9_witness :
  let s := run [Settle 0 (Notes [note1]); Select "1"] mount in
  existsb clearsLoading (inflight s) = true.
Proof.
  cbv zeta.
  apply (X9_loading_has_pending_request [Settle 0 (Notes [note1]); Select "1"]).
  reflexivity.
Defined.

Lemma commit_fetchesNamedNote (p s : State) :
  forallb fetchesNamedNote (sent s) = true ->
  forallb fetchesNamedNote (sent (commit p s)) = true.
Proof.
  unfold commit. intros H.
  destruct (render_frame s) as (_ & _ & _ & _ & _ & _ & _ & Hs & _).
  destruct (depsChanged p (render s)).
  - destruct (render_frame (activeEffect (render s)))
      as (_ & _ & _ & _ & _ & _ & _ & Hs' & _).
    rewrite Hs'. unfold activeEffect.
    destruct (truthy (activeId (render s)) && negb (isNewNote (render s)))
      eqn:Hg.
    + apply andb_true_iff in Hg. destruct Hg as [Hg _].
      destruct (activeId (render s)) as [i|]; simpl.
      * rewrite forallb_app, Hs, H. simpl. simpl in Hg. rewrite Hg.
        reflexivity.
      * rewrite Hs. exact H.
    + destruct (isNewNote (render s)); simpl; rewrite Hs; exact H.
  - destruct (render_frame (render s)) as (_ & _ & _ & _ & _ & _ & _ & Hs' & _).
    rewrite Hs', Hs. exact H.
Qed.

Lemma step_fetchesNamedNote (ev : Event) (s : State) :
  forallb fetchesNamedNote (sent s) = true ->
  forallb fetchesNamedNote (sent (step ev s)) = true.
Proof.
  intros H. destruct ev as [i| |f v| | | |k r]; simpl.
  - destruct (listed i (notes s)); auto.
    apply commit_fetchesNamedNote. exact H.
  - apply commit_fetchesNamedNote. exact H.
  - destruct (editor s); auto. destruct (loading s); auto.
  - destruct (editor s) as [e|]; auto.
    destruct (loading s || bothEmpty e); auto.
    apply commit_fetchesNamedNote. unfold handleSave.
    destruct (isNewNote s); [|destruct (activeNote s) as [[r n]|]]; simpl;
      rewrite forallb_app, H; reflexivity.
  - destruct (editor s); auto.
    destruct (isNewNote s || loading s); auto.
    apply commit_fetchesNamedNote. unfold handleDelete.
    destruct (activeNote s) as [[r n]|]; auto.
    destruct (isNewNote s); auto.
    simpl. rewrite forallb_app, H. reflexivity.
  - destruct (truthy (error s)); auto.
    apply commit_fetchesNamedNote. exact H.
  - destruct (nth_error (inflight s) k) as [[c a]|]; auto.
    destruct (accepts c r); auto.
    apply commit_fetchesNamedNote.
    destruct a; simpl; unfold handleSave_resume, handleDelete_resume;
      destruct r; simpl; rewrite ?forallb_app, ?H; reflexivity.
Qed.

Lemma length_append (a b : string) :
  String.length (a ++ b) = String.length a + String.length b.
Proof. induction a as [|c a IH]; simpl; auto. Qed.

(** X10: along every run, no note fetch is sent for the empty id: the
    page never requests the collection URL with a trailing slash in
    place of a note, whatever ids the list cache holds. *)
Theorem X10_never_fetches_empty_id (tr : list Event) (base : string) :
  let s := run tr mount in
  ~ In (CallFetchNote "") (sent s) /\
  ~ In (fetchNote base "") (map (request base) (filter
        (fun c => match c with CallFetchNote _ => true | _ => false end)
        (sent s))).
Proof.
  intros s.
  assert (H : forallb fetchesNamedNote (sent s) = true).
  { unfold s. clear s.
    assert (H0 : forallb fetchesNamedNote (sent mount) = true)
      by reflexivity.
    revert H0. generalize mount.
    induction tr as [|ev tr IH]; intros s0 H0; simpl; auto.
    apply IH. apply step_fetchesNamedNote. exact H0. }
  rewrite forallb_forall in H.
  assert (Hno : ~ In (CallFetchNote "") (sent s)).
  { intros Hin. apply H in Hin. discriminate Hin. }
  split; [exact Hno|].
  intros Hin. apply in_map_iff in Hin. destruct Hin as [c [Hc Hf]].
  apply filter_In in Hf. destruct Hf as [Hin Hk].
  destruct c as [|i| | |]; try discriminate Hk.
  apply H in Hin. simpl in Hin, Hc.
  unfold fetchNote in Hc. inversion Hc as [Hu].
  apply (f_equal String.length) in Hu.
  rewrite !length_append in Hu. simpl in Hu.
  destruct i; [discriminate Hin|]. simpl in Hu. lia.
Qed.

(** X11: when a save or delete request succeeds the page goes Idle and
    unmounts the editor whatever the user has selected or started to
    draft since the request was sent, and one list request goes out. *)
Theorem X11_success_closes_current_selection (s : State) (k : nat)
        (c : Call) (a : Awaiter) (r : Reply) :
  a = HandleSave \/ a = HandleDelete ->
  nth_error (inflight s) k = Some (c, a) ->
  accepts c r = true -> succeeded r = true ->
  let s' := step (Settle k r) s in
  selection s' = Idle /\ selectedId s' = None /\ editor s' = None /\
  sent s' = sent s ++ [CallFetchNotes] /\ notes s' = notes s.
Proof.
  intros Ha Hk Hacc Hok s'.
  destruct (settle_mutation_ok s k c a r Ha Hk Hacc Hok)
    as (Hn & Hi & Hno & He & Hns & _ & _ & _ & Hse).
  fold s' in Hn, Hi, Hno, He, Hns, Hse.
  unfold selection, selectedId. rewrite Hn, Hi, Hno. auto.
Qed.

Lemma X11_witness :
  let s := run [Save; New; Edit Title "Other"] viewing1 in
  let s' := step (Settle 0 (OneNote note1)) s in
  selection s = Drafting /\ selection s' = Idle /\ editor s' = None.
Proof.
  pose proof (X11_success_closes_current_selection
                (run [Save; New; Edit Title "Other"] viewing1) 0
                (CallUpdateNote "1" "Groceries" "Milk") HandleSave
                (OneNote note1) (or_introl eq_refl) eq_refl eq_refl eq_refl)
    as H.
  cbv zeta in H. destruct H as (H1 & _ & H2 & _).
  cbv zeta. split; [reflexivity | split; [exact H1 | exact H2]].
Defined.

(** ** The sidebar *)

Lemma substring_length (m : nat) (s : string) :
  String.length (substring 0 m s) = Nat.min m (String.length s).
Proof.
  revert s. induction m as [|m IH]; intros [|c s]; simpl; auto.
Qed.

Lemma replaceNewlines_length (s : string) :
  String.length (replaceNewlines s) = String.length s.
Proof. induction s as [|c s IH]; simpl; auto. Qed.

Lemma replaceNewlines_get (s : string) (k : nat) :
  get k (replaceNewlines s) <> Some newline.
Proof.
  revert k. induction s as [|c s IH]; intros k; simpl.
  - discriminate.
  - destruct k as [|k]; [|apply IH].
    destruct (Ascii.eqb c newline) eqn:Hc.
    + discriminate.
    + intros H. inversion H. subst.
      rewrite Ascii.eqb_refl in Hc. discriminate Hc.
Qed.

Lemma replaceNewlines_id (s : string) :
  (forall k, get k s <> Some newline) -> replaceNewlines s = s.
Proof.
  induction s as [|c s IH]; intros H; simpl; auto.
  destruct (Ascii.eqb c newline) eqn:Hc.
  - apply Ascii.eqb_eq in Hc. subst. exfalso. apply (H 0). reflexivity.
  - f_equal. apply IH. intros k. apply (H (S k)).
Qed.

Lemma substring_all (m : nat) (s : string) :
  String.length s <= m -> substring 0 m s = s.
Proof.
  revert m. induction s as [|c s IH]; intros [|m] H; simpl in *; auto.
  - lia.
  - f_equal. apply IH. lia.
Qed.

(** X12: the excerpt the sidebar shows for a note is the start of its
    content, 50 characters at most, on one line: no line break survives.
    A content of at most 50 characters without line breaks is shown as
    it is.  The title line is never empty: a note without a title is
    listed as Untitled. *)
Theorem X12_sidebar_item_texts (sel : option string) (n : Note) :
  let it := sidebarItem sel n in
  String.length (itemSnippet it) = Nat.min 50 (String.length (content n)) /\
  (forall k, get k (itemSnippet it) <> Some newline) /\
  ((forall k, get k (content n) <> Some newline) ->
   String.length (content n) <= 50 -> itemSnippet it = content n) /\
  itemTitle it <> "" /\
  (title n <> "" -> itemTitle it = title n) /\
  itemKey it = id n.
Proof.
  simpl. split; [|split; [|split; [|split; [|split]]]].
  - rewrite substring_length, replaceNewlines_length. reflexivity.
  - intros k.
    destruct (Nat.lt_ge_cases k 50) as [Hk|Hk].
    + rewrite (substring_correct1 _ 0 50 k Hk), Nat.add_0_r.
      apply replaceNewlines_get.
    + rewrite (substring_correct2 _ 0 50 k Hk). discriminate.
  - intros Hn Hl. rewrite (replaceNewlines_id _ Hn).
    apply substring_all. exact Hl.
  - destruct (title n =? "") eqn:Ht; [discriminate|].
    apply String.eqb_neq. exact Ht.
  - intros Ht. apply String.eqb_neq in Ht. rewrite Ht. reflexivity.
  - reflexivity.
Qed.

Lemma X12_witness :
  itemSnippet (sidebarItem None note1) = "Milk" /\
  itemTitle (sidebarItem None note1) = "Groceries".
Proof.
  pose proof (X12_sidebar_item_texts None note1) as H.
  cbv zeta in H. destruct H as (_ & _ & H1 & _ & H2 & _).
  split.
  - apply H1.
    + intros k. do 5 (destruct k as [|k]; [discriminate|]). discriminate.
    + simpl. lia.
  - apply H2. discriminate.
Defined.

Lemma highlighted_sidebarItem (sel : option string) (n : Note) :
  highlighted (sidebarItem sel n) = optStringEqb sel (Some (id n)).
Proof.
  unfold highlighted, sidebarItem. simpl itemClass.
  destruct (optStringEqb sel (Some (id n))); reflexivity.
Qed.

Lemma activeEffect_deps (s : State) :
  activeId (activeEffect s) = activeId s /\
  isNewNote (activeEffect s) = isNewNote s.
Proof.
  unfold activeEffect.
  destruct (truthy (activeId s) && negb (isNewNote s)).
  - destruct (activeId s) eqn:E; simpl; rewrite ?E; split; reflexivity.
  - destruct (isNewNote s) eqn:E; simpl; rewrite ?E; split; reflexivity.
Qed.

Lemma commit_deps (p s : State) :
  activeId (commit p s) = activeId s /\
  isNewNote (commit p s) = isNewNote s.
Proof.
  unfold commit.
  destruct (render_frame s) as (_ & Ha & _ & Hn & _).
  destruct (depsChanged p (render s)).
  - destruct (render_frame (activeEffect (render s)))
      as (_ & Ha' & _ & Hn' & _).
    destruct (activeEffect_deps (render s)) as [Ha2 Hn2].
    rewrite Ha', Hn', Ha2, Hn2. auto.
  - destruct (render_frame (render s)) as (_ & Ha' & _ & Hn' & _).
    rewrite Ha', Hn'. auto.
Qed.

(** X13: the sidebar lists one item per cached note, in order.  Right
    after a click on a listed note, before its fetch settles, the
    highlighted items are exactly those of the clicked id; right after
    New no item is highlighted. *)
Theorem X13_sidebar_highlight (s : State) (i : string) :
  listed i (notes s) = true ->
  let s1 := step (Select i) s in
  let s2 := step New s in
  map itemKey (Sidebar s1) = map id (notes s) /\
  map highlighted (Sidebar s1) = map (fun n => id n =? i) (notes s) /\
  existsb highlighted (Sidebar s1) = true /\
  map itemKey (Sidebar s2) = map id (notes s) /\
  existsb highlighted (Sidebar s2) = false.
Proof.
  intros Hl s1 s2.
  assert (H1 : notes s1 = notes s /\ selectedId s1 = Some i).
  { unfold s1. simpl. rewrite Hl.
    destruct (commit_requests s (handleSelectNote i s)) as [Hn _].
    destruct (commit_deps s (handleSelectNote i s)) as [Ha Hnn].
    unfold selectedId. rewrite Hn, Ha, Hnn. auto. }
  assert (H2 : notes s2 = notes s /\ selectedId s2 = None).
  { unfold s2. simpl.
    destruct (commit_requests s (handleAddNew s)) as [Hn _].
    destruct (commit_deps s (handleAddNew s)) as [_ Hnn].
    unfold selectedId. rewrite Hn, Hnn. auto. }
  destruct H1 as [Hn1 Hs1]. destruct H2 as [Hn2 Hs2].
  unfold Sidebar. rewrite Hn1, Hs1, Hn2, Hs2.
  rewrite !map_map. simpl.
  assert (Hh : forall sel l,
             map (fun n => highlighted (sidebarItem sel n)) l
             = map (fun n => optStringEqb sel (Some (id n))) l).
  { intros sel l. apply map_ext. intros n. apply highlighted_sidebarItem. }
  split; [reflexivity|]. split.
  { rewrite Hh. apply map_ext. intros n. simpl. apply String.eqb_sym. }
  split.
  { unfold listed in Hl. apply existsb_exists in Hl.
    destruct Hl as [n [Hin Hid]].
    apply existsb_exists. exists (sidebarItem (Some i) n). split.
    - apply in_map. exact Hin.
    - rewrite highlighted_sidebarItem. simpl. rewrite String.eqb_sym.
      exact Hid. }
  split; [reflexivity|].
  clear. generalize (notes s). intros l.
  induction l as [|n l IH]; [reflexivity|].
  change (highlighted (sidebarItem None n)
          || existsb highlighted (map (sidebarItem None) l) = false).
  rewrite highlighted_sidebarItem. exact IH.
Qed.

Lemma X13_witness :
  map highlighted (Sidebar (step (Select "1") loaded)) = [true] /\
  existsb highlighted (Sidebar (step New loaded)) = false.
Proof.
  pose proof (X13_sidebar_highlight loaded "1" eq_refl) as H.
  cbv zeta in H. destruct H as (_ & H1 & _ & _ & H2).
  split; [exact H1 | exact H2].
Defined.

(** ** Class lists *)

Lemma append_assoc (a b c : string) :
  ((a ++ b) ++ c = a ++ (b ++ c))%string.
Proof. induction a as [|x a IH]; simpl; auto. rewrite IH. reflexivity. Qed.

Lemma concat_app (sep : string) (a b : list string) :
  a <> [] -> b <> [] ->
  String.concat sep (a ++ b)
  = (String.concat sep a ++ sep ++ String.concat sep b)%string.
Proof.
  induction a as [|x a IH]; intros Ha Hb; [contradiction|].
  destruct a as [|y a].
  - simpl. destruct b; [contradiction|reflexivity].
  - change (String.concat sep ((x :: y :: a) ++ b))
      with (x ++ sep ++ String.concat sep ((y :: a) ++ b))%string.
    rewrite IH by (auto; discriminate).
    change (String.concat sep (x :: y :: a))
      with (x ++ sep ++ String.concat sep (y :: a))%string.
    rewrite !append_assoc. reflexivity.
Qed.

Lemma concat_nonempty (sep : string) (l : list string) :
  forallb (fun c => negb (c =? "")) l = true -> l <> [] ->
  String.concat sep l <> "".
Proof.
  destruct l as [|x l]; intros H Hl; [contradiction|].
  simpl in H. apply andb_true_iff in H. destruct H as [Hx _].
  destruct x as [|c x]; [discriminate Hx|].
  destruct l; simpl; discriminate.
Qed.

Lemma filter_all (f : string -> bool) (l : list string) :
  forallb f (filter f l) = true.
Proof.
  induction l as [|x l IH]; simpl; auto.
  destruct (f x) eqn:Hx; simpl; rewrite ?Hx; auto.
Qed.

Lemma classNames_empty (l : list string) :
  classNames l = "" <-> filter (fun c => negb (c =? "")) l = [].
Proof.
  unfold classNames. split.
  - intros H. destruct (filter _ l) eqn:Hf; auto.
    exfalso. revert H. apply concat_nonempty; [|discriminate].
    rewrite <- Hf. apply filter_all.
  - intros H. rewrite H. reflexivity.
Qed.

(** X14: [classNames] drops the empty entries and joins the rest with
    single spaces: the class string of two lists put together is the
    two class strings joined by one space, or the one that is not
    empty, and the result is empty only when every entry is. *)
Theorem X14_classNames_joins (l l' : list string) :
  classNames (l ++ l')
  = (if classNames l =? "" then classNames l'
     else if classNames l' =? "" then classNames l
          else classNames l ++ " " ++ classNames l')%string /\
  classNames (l ++ "" :: l') = classNames (l ++ l') /\
  (classNames l = "" <-> forall c, In c l -> c = "").
Proof.
  split; [|split].
  - destruct (classNames l =? "") eqn:H1.
    + apply String.eqb_eq, classNames_empty in H1.
      unfold classNames. rewrite filter_app, H1. reflexivity.
    + destruct (classNames l' =? "") eqn:H2.
      * apply String.eqb_eq, classNames_empty in H2.
        unfold classNames. rewrite filter_app, H2, app_nil_r. reflexivity.
      * apply String.eqb_neq in H1, H2.
        unfold classNames in *. rewrite filter_app.
        apply concat_app; intros Hn; rewrite Hn in *; contradiction.
  - unfold classNames. rewrite !filter_app. reflexivity.
  - rewrite classNames_empty. split.
    + intros H c Hc.
      destruct (c =? "") eqn:He; [apply String.eqb_eq; exact He|].
      assert (Hin : In c (filter (fun c => negb (c =? "")) l)).
      { apply filter_In. split; auto. rewrite He. reflexivity. }
      rewrite H in Hin. destruct Hin.
    + intros H. induction l as [|x l IH]; auto.
      simpl. rewrite (H x (or_introl eq_refl)). simpl.
      apply IH. intros c Hc. apply H. right. exact Hc.
Qed.

(** ** Request shapes *)

Lemma prefix_app (a b c : string) :
  prefix (a ++ b) (a ++ c) = prefix b c.
Proof.
  induction a as [|x a IH]; simpl; auto.
  destruct (ascii_dec x x) as [_|Hx]; [exact IH | contradiction].
Qed.

Lemma append_cancel (a b c : string) :
  (a ++ b = a ++ c)%string -> b = c.
Proof.
  induction a as [|x a IH]; simpl; intros H; auto.
  inversion H. auto.
Qed.

(** X15: every request goes to the notes collection under the base
    URL; the base is never empty, an unset or empty setting falling
    back to the local default.  Only POST and PUT carry a body, and a
    body has the two fields title and content and no id.  Two note
    fetches with different ids go to different URLs. *)
Theorem X15_request_shapes (env : option string) (c : Call) :
  let base := API_URL env in
  let f := request base c in
  base <> "" /\
  (forall u, env = Some u -> u <> "" -> base = u) /\
  prefix (base ++ "/notes") (url f) = true /\
  match method f with
  | POST | PUT =>
      exists t x, body f = Some [("title", t); ("content", x)]
  | GET | DELETE => body f = None
  end /\
  (forall i j, url (fetchNote base i) = url (fetchNote base j) -> i = j).
Proof.
  intros base f.
  split; [|split; [|split; [|split]]].
  - unfold base, API_URL. destruct env as [u|]; [|discriminate].
    destruct (u =? "") eqn:Hu; [discriminate|].
    apply String.eqb_neq. exact Hu.
  - intros u He Hu. unfold base. rewrite He. simpl.
    apply String.eqb_neq in Hu. rewrite Hu. reflexivity.
  - unfold f. destruct c; simpl url;
      rewrite prefix_app; reflexivity.
  - unfold f. destruct c; simpl; eauto.
  - intros i j H. simpl in H. apply append_cancel in H.
    inversion H. reflexivity.
Qed.

Lemma X15_witness :
  API_URL (Some "https://notes.example/api") = "https://notes.example/api" /\
  API_URL (Some "") = default_API_URL.
Proof.
  pose proof (X15_request_shapes (Some "https://notes.example/api")
                CallFetchNotes) as H.
  cbv zeta in H. destruct H as (_ & H & _).
  split; [apply (H _ eq_refl); discriminate | reflexivity].
Defined.

(** ** Saving after a failed Select *)

(** X16: after a Select(j) made while viewing note i whose fetch was
    rejected, the sidebar highlights j but the editor still holds note i
    with whatever was typed, and a Save updates note i, not j. *)
Theorem X16_save_after_failed_select (s : State) (e : Editor)
        (i j : string) :
  rendered s -> selection s = Viewing i -> editor s = Some e ->
  bothEmpty e = false ->
  listed j (notes s) = true -> j <> "" -> activeId s <> Some j ->
  let s2 := step (Settle (length (inflight s)) Failed)
                 (step (Select j) s) in
  selectedId s2 = Some j /\ selection s2 = Viewing i /\
  editor s2 = Some e /\
  sent (step Save s2)
  = sent s2 ++ [CallUpdateNote i (localTitle e) (localContent e)].
Proof.
  intros Hr Hsel He Hb Hl Hj Hne s2.
  unfold selection in Hsel.
  destruct (isNewNote s) eqn:Hn; [discriminate Hsel|].
  destruct (activeNote s) as [[r n]|] eqn:Ha; [|discriminate Hsel].
  inversion Hsel as [Hi].
  pose proof (step_select_issues s j Hr Hn Hl Hj Hne) as H1.
  assert (Hk : nth_error (inflight (step (Select j) s)) (length (inflight s))
               = Some (CallFetchNote j, ActiveEffect))
    by (rewrite H1; simpl; apply nth_error_snoc).
  assert (Hr1 : rendered (step (Select j) s))
    by (apply step_rendered; exact Hr).
  pose proof (settle_failed _ _ _ _ Hr1 Hk) as H2. fold s2 in H2.
  assert (Hr2 : rendered s2) by (apply step_rendered; exact Hr1).
  assert (He2 : editor s2 = Some e) by (rewrite H2, H1; exact He).
  assert (Hl2 : loading s2 = false) by (rewrite H2; reflexivity).
  assert (Hn2 : isNewNote s2 = false) by (rewrite H2, H1; reflexivity).
  assert (Ha2 : activeNote s2 = Some (r, n)) by (rewrite H2, H1; exact Ha).
  split; [unfold selectedId; rewrite H2, H1; reflexivity|].
  split; [unfold selection; rewrite Hn2, Ha2; reflexivity|].
  split; [exact He2|].
  rewrite (step_save_issues s2 e Hr2 He2 Hl2 Hb). simpl.
  unfold saveCall. rewrite Hn2, Ha2. reflexivity.
Qed.

Lemma X16_witness :
  let s2 := step (Settle (length (inflight editing1)) Failed)
                 (step (Select "2") editing1) in
  selectedId s2 = Some "2" /\
  sent (step Save s2)
  = sent s2 ++ [CallUpdateNote "1" "Groceries" "Milk, eggs"].
Proof.
  assert (Hr : rendered editing1) by (vm_compute; reflexivity).
  assert (Hs : selection editing1 = Viewing "1") by (vm_compute; reflexivity).
  assert (He : editor editing1
               = Some (mkEditor (Some 0) "Groceries" "Milk, eggs"))
    by (vm_compute; reflexivity).
  assert (Hl : listed "2" (notes editing1) = true)
    by (vm_compute; reflexivity).
  assert (Hj : "2" <> "") by discriminate.
  assert (Hne : activeId editing1 <> Some "2") by (vm_compute; discriminate).
  pose proof (X16_save_after_failed_select editing1
                (mkEditor (Some 0) "Groceries" "Milk, eggs") "1" "2"
                Hr Hs He eq_refl Hl Hj Hne) as H.
  cbv zeta in H. destruct H as (H1 & _ & _ & H2).
  cbv zeta. split; [exact H1 | exact H2].
Defined.
